(** * pysics: the nuclear binding-energy module

    A shallow embedding of [nuclear/binding_energy.py] and the properties of
    its semi-empirical mass formula (SEMF), separation energies, decay
    Q-values, stability searches and nuclide table.

    Number model.  Python [int] is [Z].  Python [float] is idealised as a
    real number ([R]): rounding and overflow are left out, everything else
    Python does with numbers is kept -- true division raises
    [ZeroDivisionError] on a zero divisor, [math.sqrt] raises [ValueError]
    on a negative argument, a negative base under a fractional exponent
    yields a [complex], and ordering a [complex] raises [TypeError].

    One place turns a float into an integer: [int(mass_number / 2.2)] and
    its siblings in [atomic_number_from_mass].  There the last bit of the
    quotient decides the result (55 / 2.2 is just below 25), so that
    division is computed as binary64 does it: operands and quotient rounded
    to 53 significant bits, ties to even; only the exponent range is left
    unbounded. *)

From Stdlib Require Import ZArith Reals Lra Lia String List.
From stdpp Require Import base tactics option list strings gmap.

Local Open Scope Z_scope.

(** Python's [int]; the module names its proton number [Z]. *)
Abbreviation int := BinNums.Z (only parsing).

(** ** Exceptions and the error monad *)

Inductive pyexn : Type :=
  | ZeroDivisionError
  | ValueError (msg : string)
  | TypeError.

Inductive result (T : Type) : Type :=
  | Ok (v : T)
  | Raise (e : pyexn).
Arguments Ok {T} v.
Arguments Raise {T} e.

#[global] Instance result_ret : MRet result := fun _ v => Ok v.
#[global] Instance result_bind : MBind result := fun _ _ f m =>
  match m with
  | Ok v => f v
  | Raise e => Raise e
  end.

(** The loops of the module, each one written once.  [for_return] is a
    [for] whose body may [return]; [for_fold] threads the loop variables;
    [for_append] collects one value per iteration. *)

Fixpoint for_return {T U : Type} (xs : list T) (body : T -> result (option U))
    (after : result U) : result U :=
  match xs with
  | [] => after
  | x :: rest =>
      r ← body x;
      match r with
      | Some v => Ok v
      | None => for_return rest body after
      end
  end.

Fixpoint for_fold {T S : Type} (xs : list T) (body : S -> T -> result S)
    (st : S) : result S :=
  match xs with
  | [] => Ok st
  | x :: rest => st' ← body st x; for_fold rest body st'
  end.

Fixpoint for_append {T U : Type} (xs : list T) (body : T -> result U)
    : result (list U) :=
  match xs with
  | [] => Ok []
  | x :: rest => v ← body x; vs ← for_append rest body; Ok (v :: vs)
  end.

(** [range(lo, hi)] *)
Definition py_range (lo hi : Z) : list Z := seqZ lo (hi - lo).

(** ** Numbers *)

Inductive pynum : Type :=
  | PFloat (r : R)
  | PComplex (re im : R).

#[global] Instance R_eq_dec : EqDecision R := Req_dec_T.
#[global] Instance Rlt_decision (x y : R) : Decision (x < y)%R := Rlt_dec x y.
#[global] Instance Rle_decision (x y : R) : Decision (x <= y)%R := Rle_dec x y.

Definition of_int (z : Z) : pynum := PFloat (IZR z).

Definition re_part (x : pynum) : R :=
  match x with PFloat r => r | PComplex a _ => a end.
Definition im_part (x : pynum) : R :=
  match x with PFloat _ => 0%R | PComplex _ b => b end.

Definition py_add (x y : pynum) : pynum :=
  match x, y with
  | PFloat a, PFloat b => PFloat (a + b)
  | _, _ => PComplex (re_part x + re_part y) (im_part x + im_part y)
  end.

Definition py_sub (x y : pynum) : pynum :=
  match x, y with
  | PFloat a, PFloat b => PFloat (a - b)
  | _, _ => PComplex (re_part x - re_part y) (im_part x - im_part y)
  end.

Definition py_mul (x y : pynum) : pynum :=
  match x, y with
  | PFloat a, PFloat b => PFloat (a * b)
  | _, _ =>
      PComplex (re_part x * re_part y - im_part x * im_part y)
               (re_part x * im_part y + im_part x * re_part y)
  end.

(** [x / y]: Python raises on a zero divisor, float or complex. *)
Definition py_truediv (x y : pynum) : result pynum :=
  match x, y with
  | PFloat a, PFloat b =>
      if decide (b = 0%R) then Raise ZeroDivisionError else Ok (PFloat (a / b))
  | _, _ =>
      let c := re_part y in
      let d := im_part y in
      if decide (c = 0%R /\ d = 0%R) then Raise ZeroDivisionError
      else Ok (PComplex ((re_part x * c + im_part x * d) / (c * c + d * d))
                        ((im_part x * c - re_part x * d) / (c * c + d * d)))
  end.

(** [b ** e] for an [int] base and one of the fractional float exponents the
    module uses ([2/3] and [1/3], so [0 < e < 1]): a positive base gives a
    float, zero gives [0.0], a negative base gives the principal complex
    power [|b|^e * (cos (pi e) + i sin (pi e))]. *)
Definition py_pow (b : Z) (e : R) : pynum :=
  if 0 <? b then PFloat (Rpower (IZR b) e)
  else if b =? 0 then PFloat 0
  else PComplex (Rpower (IZR (- b)) e * cos (PI * e))
                (Rpower (IZR (- b)) e * sin (PI * e)).

(** [math.sqrt(a)] for an [int] argument. *)
Definition math_sqrt (a : Z) : result pynum :=
  if a <? 0 then Raise (ValueError "math domain error")
  else Ok (PFloat (sqrt (IZR a))).

(** [x < y] and [x <= y]: complex numbers are not ordered. *)
Definition py_lt (x y : pynum) : result bool :=
  match x, y with
  | PFloat a, PFloat b => Ok (bool_decide (a < b)%R)
  | _, _ => Raise TypeError
  end.

Definition py_le (x y : pynum) : result bool :=
  match x, y with
  | PFloat a, PFloat b => Ok (bool_decide (a <= b)%R)
  | _, _ => Raise TypeError
  end.

(** ** The constants module

    [from ..constants import *]: the values come from a module outside this
    file, so the functions take them as a record. *)

Record Constants : Type := {
  PROTON_MASS_MEV : R;
  NEUTRON_MASS_MEV : R;
  ELECTRON_MASS_MEV : R;
  ATOMIC_MASS_UNIT_MEV : R;
  NUCLEAR_RADIUS_CONSTANT : R;
  COULOMB_CONSTANT : R;
  ELEMENTARY_CHARGE : R;
  ELECTRON_VOLT : R
}.

(** ** The SEMF engine *)

Definition binding_energy_semf (A Z : int) : result pynum :=
  let a_v := PFloat 15.75 in
  let a_s := PFloat 17.8 in
  let a_c := PFloat 0.711 in
  let a_A := PFloat 23.7 in
  delta ←
    (if (Z mod 2 =? 0) && ((A - Z) mod 2 =? 0) then
       s ← math_sqrt A; py_truediv (PFloat 11.18) s
     else if (Z mod 2 =? 1) && ((A - Z) mod 2 =? 1) then
       s ← math_sqrt A; py_truediv (PFloat (-11.18)) s
     else Ok (of_int 0));
  let volume := py_mul a_v (of_int A) in
  let surface := py_mul a_s (py_pow A (2 / 3)) in
  coulomb ← py_truediv (py_mul a_c (of_int (Z ^ 2))) (py_pow A (1 / 3));
  asym ← py_truediv (py_mul a_A (of_int ((A - 2 * Z) ^ 2))) (of_int A);
  Ok (py_add (py_sub (py_sub (py_sub volume surface) coulomb) asym) delta).

Definition semi_empirical_mass_formula (K : Constants) (A Z : int)
    : result pynum :=
  let a_v := PFloat 15.75 in
  let a_s := PFloat 17.8 in
  let a_c := PFloat 0.711 in
  let a_A := PFloat 23.7 in
  delta ←
    (if (Z mod 2 =? 0) && ((A - Z) mod 2 =? 0) then
       s ← math_sqrt A; py_truediv (PFloat 11.18) s
     else if (Z mod 2 =? 1) && ((A - Z) mod 2 =? 1) then
       s ← math_sqrt A; py_truediv (PFloat (-11.18)) s
     else Ok (of_int 0));
  let volume := py_mul a_v (of_int A) in
  let surface := py_mul a_s (py_pow A (2 / 3)) in
  coulomb ← py_truediv (py_mul a_c (of_int (Z ^ 2))) (py_pow A (1 / 3));
  asym ← py_truediv (py_mul a_A (of_int ((A - 2 * Z) ^ 2))) (of_int A);
  let BE := py_add (py_sub (py_sub (py_sub volume surface) coulomb) asym) delta in
  let mass_energy :=
    py_sub (py_add (py_mul (of_int Z) (PFloat (PROTON_MASS_MEV K)))
                   (py_mul (of_int (A - Z)) (PFloat (NEUTRON_MASS_MEV K))))
           BE in
  py_truediv mass_energy (PFloat (ATOMIC_MASS_UNIT_MEV K)).

(** ** Derived observables and decay kinematics *)

Definition separation_energy (A Z : int) (particle : string) : result pynum :=
  if String.eqb particle "neutron" then
    BE_initial ← binding_energy_semf A Z;
    BE_final ← binding_energy_semf (A - 1) Z;
    Ok (py_sub BE_initial BE_final)
  else if String.eqb particle "proton" then
    BE_initial ← binding_energy_semf A Z;
    BE_final ← binding_energy_semf (A - 1) (Z - 1);
    Ok (py_sub BE_initial BE_final)
  else if String.eqb particle "alpha" then
    BE_initial ← binding_energy_semf A Z;
    BE_final ← binding_energy_semf (A - 4) (Z - 2);
    Ok (py_sub (py_sub BE_initial BE_final) (PFloat 28.3))
  else Raise (ValueError ("Unknown particle type: " ++ particle)).

Definition two_neutron_separation_energy (A Z : int) : result pynum :=
  BE_initial ← binding_energy_semf A Z;
  BE_final ← binding_energy_semf (A - 2) Z;
  Ok (py_sub BE_initial BE_final).

Definition q_value_beta_decay (K : Constants) (A Z : int) (decay_type : string)
    : result pynum :=
  if String.eqb decay_type "beta-" then
    M_parent ← semi_empirical_mass_formula K A Z;
    M_daughter ← semi_empirical_mass_formula K A (Z + 1);
    Ok (py_mul (py_sub M_parent M_daughter) (PFloat (ATOMIC_MASS_UNIT_MEV K)))
  else if String.eqb decay_type "beta+" then
    M_parent ← semi_empirical_mass_formula K A Z;
    M_daughter ← semi_empirical_mass_formula K A (Z - 1);
    Ok (py_mul
          (py_sub (py_sub M_parent M_daughter)
                  (py_mul (of_int 2) (PFloat (ELECTRON_MASS_MEV K))))
          (PFloat (ATOMIC_MASS_UNIT_MEV K)))
  else Raise (ValueError ("Unknown decay type: " ++ decay_type)).

(** ** Binding-energy decomposition *)

Definition nuclear_radius (K : Constants) (A : int) : pynum :=
  let r0 := PFloat (NUCLEAR_RADIUS_CONSTANT K) in
  py_mul r0 (py_pow A (1 / 3)).

Definition coulomb_energy (K : Constants) (A Z : int) : result pynum :=
  let R := py_mul (nuclear_radius K A) (PFloat 1e-15) in
  let e := PFloat (ELEMENTARY_CHARGE K) in
  three_fifths ← py_truediv (of_int 3) (of_int 5);
  q1 ← py_truediv
         (py_mul (py_mul (py_mul three_fifths (PFloat (COULOMB_CONSTANT K)))
                         (of_int (Z ^ 2)))
                 (py_mul e e))
         R;
  q2 ← py_truediv q1 (PFloat (ELECTRON_VOLT K));
  py_truediv q2 (PFloat 1e6).

Definition surface_energy (A : int) : pynum :=
  let a_s := PFloat 17.8 in
  py_mul a_s (py_pow A (2 / 3)).

Definition asymmetry_energy (A Z : int) : result pynum :=
  let a_A := PFloat 23.7 in
  py_truediv (py_mul a_A (of_int ((A - 2 * Z) ^ 2))) (of_int A).

Definition pairing_energy (A Z : int) : result pynum :=
  let N := A - Z in
  if (Z mod 2 =? 0) && (N mod 2 =? 0) then
    s ← math_sqrt A; py_truediv (PFloat 11.18) s
  else if (Z mod 2 =? 1) && (N mod 2 =? 1) then
    s ← math_sqrt A; py_truediv (PFloat (-11.18)) s
  else Ok (of_int 0).

(** ** Stability search *)

(** [min_mass] starts as [float('inf')], which only ever stands on the right
    of [<]: every finite float is below it. *)
Inductive min_mass_t : Type :=
  | Inf
  | Fin (m : pynum).

Definition lt_min_mass (mass : pynum) (min_mass : min_mass_t) : result bool :=
  match min_mass with
  | Inf => match mass with
           | PFloat _ => Ok true
           | PComplex _ _ => Raise TypeError
           end
  | Fin m => py_lt mass m
  end.

Definition valley_of_stability (K : Constants) (A_range : int * int)
    : result (list int) :=
  for_append (py_range (fst A_range) (snd A_range + 1)) (fun A =>
    st ← for_fold (py_range 1 A)
           (fun '(min_mass, best_Z) Z =>
              mass ← semi_empirical_mass_formula K A Z;
              c ← lt_min_mass mass min_mass;
              Ok (if c : bool then (Fin mass, Z) else (min_mass, best_Z)))
           (Inf, 1);
    Ok (snd st)).

Definition neutron_drip_line (Z : int) : result int :=
  for_return (py_range Z 300) (fun A =>
    S_n ← separation_energy A Z "neutron";
    c ← py_le S_n (of_int 0);
    Ok (if c : bool then Some (A - 1) else None))
  (Ok 300).

Definition proton_drip_line (Z : int) : result int :=
  for_return (py_range Z 300) (fun A =>
    S_p ← separation_energy A Z "proton";
    c ← py_le S_p (of_int 0);
    Ok (if c : bool then Some (A - 1) else None))
  (Ok 300).

(** ** The nuclide table *)

(** A value stored in a record: ['A'] and ['Z'] are ints, ['mass'] a float. *)
Inductive pyval : Type :=
  | VInt (z : int)
  | VFloat (r : R).

(** Dict objects have identity.  The inner dicts of [NUCLEAR_DATA] are
    reached through their key; every dict made by [.copy()] is a new object,
    numbered in order of creation. *)
Inductive ref : Type :=
  | Stored (name : string)
  | Copy (i : nat).

Record store : Type := {
  repo : list (string * gmap string pyval);   (* NUCLEAR_DATA, in key order *)
  copies : list (gmap string pyval)           (* dicts allocated by copy()  *)
}.

Definition nuclide (A Z : int) (mass : R) : gmap string pyval :=
  <["A" := VInt A]> (<["Z" := VInt Z]> (<["mass" := VFloat mass]> ∅)).

Definition NUCLEAR_DATA : list (string * gmap string pyval) :=
  [ ("H-1", nuclide 1 1 1.007825);
    ("H-2", nuclide 2 1 2.014102);
    ("H-3", nuclide 3 1 3.016049);
    ("He-3", nuclide 3 2 3.016029);
    ("He-4", nuclide 4 2 4.002603);
    ("Li-6", nuclide 6 3 6.015122);
    ("Li-7", nuclide 7 3 7.016004);
    ("C-12", nuclide 12 6 12.000000);
    ("N-14", nuclide 14 7 14.003074);
    ("O-16", nuclide 16 8 15.994915);
    ("Fe-56", nuclide 56 26 55.934942);
    ("U-235", nuclide 235 92 235.043930);
    ("U-238", nuclide 238 92 238.050788) ].

Definition initial_store : store := {| repo := NUCLEAR_DATA; copies := [] |}.

(** [d[key]] on the outer dict. *)
Fixpoint dict_get {V : Type} (key : string) (d : list (string * V)) : option V :=
  match d with
  | [] => None
  | (k, v) :: rest => if String.eqb key k then Some v else dict_get key rest
  end.

(** [', '.join(keys)] *)
Fixpoint join (sep : string) (xs : list string) : string :=
  match xs with
  | [] => ""
  | [x] => x
  | x :: rest => x ++ sep ++ join sep rest
  end.

Definition get_nuclear_data (nucleus : string) (st : store)
    : result ref * store :=
  match dict_get nucleus (repo st) with
  | Some d =>
      (Ok (Copy (length (copies st))),
       {| repo := repo st; copies := copies st ++ [d] |})
  | None =>
      let available := join ", " (map fst (repo st)) in
      (Raise (ValueError ("Nucleus " ++ nucleus ++ " not found. Available: "
                          ++ available)), st)
  end.

(** What a caller can do to a dict it holds. *)
Inductive dict_op : Type :=
  | SetItem (key : string) (v : pyval)   (* d[key] = v  *)
  | DelItem (key : string)               (* d.pop(key, None) *)
  | Clear.                               (* d.clear()   *)

Definition apply_op (op : dict_op) (d : gmap string pyval) : gmap string pyval :=
  match op with
  | SetItem key v => <[key := v]> d
  | DelItem key => delete key d
  | Clear => ∅
  end.

Definition mutate (r : ref) (st : store) (op : dict_op) : store :=
  match r with
  | Stored name =>
      {| repo := map (fun kv => if String.eqb (fst kv) name
                                then (fst kv, apply_op op (snd kv)) else kv)
                     (repo st);
         copies := copies st |}
  | Copy i =>
      {| repo := repo st; copies := alter (apply_op op) i (copies st) |}
  end.

Definition deref (r : ref) (st : store) : option (gmap string pyval) :=
  match r with
  | Stored name => dict_get name (repo st)
  | Copy i => copies st !! i
  end.

(** ** The measured-mass functions, classifiers and remaining observables *)

(** A binary64 value [mant * 2^expo]; only positive ones occur here. *)
Record b64 : Type := { mant : int; expo : int }.

(** The binary64 number nearest to the positive rational [n / d], ties to
    even: [expo] is chosen so that [n / (d * 2^expo)] lies in
    [2^52, 2^53), and that scaled quotient is rounded to an integer. *)
Definition b64_round (n d : int) : b64 :=
  if n <=? 0 then {| mant := 0; expo := 0 |}
  else
    let k := Z.log2 n - Z.log2 d in
    let above := if 0 <=? k then d * 2 ^ k <=? n else d <=? n * 2 ^ (- k) in
    let e := if above then k - 52 else k - 53 in
    let N := if e <? 0 then n * 2 ^ (- e) else n in
    let D := if e <? 0 then d else d * 2 ^ e in
    let q := N / D in
    let r := N mod D in
    let m := if 2 * r <? D then q
             else if D <? 2 * r then q + 1
             else if Z.even q then q else q + 1 in
    {| mant := m; expo := e |}.

(** [float(z)] for a positive [int], the float written [n/d] in decimal
    (as [2.1] is [21/10]), [x / y] and [int(x)], in binary64. *)
Definition b64_of_int (z : int) : b64 := b64_round z 1.

Definition b64_lit (n d : int) : b64 := b64_round n d.

Definition b64_div (x y : b64) : b64 :=
  let t := Z.min (expo x) (expo y) in
  b64_round (mant x * 2 ^ (expo x - t)) (mant y * 2 ^ (expo y - t)).

Definition b64_int (x : b64) : int :=
  if 0 <=? expo x then mant x * 2 ^ expo x else mant x / 2 ^ (- expo x).

(** Unary minus. *)
Definition py_neg (x : pynum) : pynum :=
  match x with
  | PFloat r => PFloat (- r)
  | PComplex a b => PComplex (- a) (- b)
  end.

(** The constants in SI units that only [binding_energy] and
    [nuclear_density] read; they too come from the constants module. *)
Record SIConstants : Type := {
  PROTON_MASS : R;
  NEUTRON_MASS : R;
  ATOMIC_MASS_UNIT : R;
  SPEED_OF_LIGHT : R
}.

(** The float branches are only reached with [mass_number > 20] and divide
    by a nonzero literal, so nothing can be raised. *)
Definition atomic_number_from_mass (mass_number : int) : result int :=
  if mass_number <=? 20 then Ok (mass_number / 2)
  else if mass_number <=? 40 then
    Ok (b64_int (b64_div (b64_of_int mass_number) (b64_lit 21 10)))
  else if mass_number <=? 100 then
    Ok (b64_int (b64_div (b64_of_int mass_number) (b64_lit 22 10)))
  else
    Ok (b64_int (b64_div (b64_of_int mass_number) (b64_lit 24 10))).

Definition binding_energy (K : Constants) (S : SIConstants)
    (mass_number : int) (atomic_mass : R) : result pynum :=
  Z ← atomic_number_from_mass mass_number;
  let mass_defect :=
    py_sub (py_add (py_mul (of_int Z) (PFloat (PROTON_MASS S)))
                   (py_mul (of_int (mass_number - Z)) (PFloat (NEUTRON_MASS S))))
           (py_mul (PFloat atomic_mass) (PFloat (ATOMIC_MASS_UNIT S))) in
  let c := PFloat (SPEED_OF_LIGHT S) in
  q ← py_truediv (py_mul mass_defect (py_mul c c))
                 (PFloat (ELECTRON_VOLT K));
  py_truediv q (PFloat 1e6).

Definition binding_energy_per_nucleon (K : Constants) (S : SIConstants)
    (mass_number : int) (atomic_mass : R) : result pynum :=
  BE ← binding_energy K S mass_number atomic_mass;
  py_truediv BE (of_int mass_number).

Definition mass_defect (K : Constants) (mass_number : int) (atomic_mass : R)
    : result pynum :=
  Z ← atomic_number_from_mass mass_number;
  let theoretical_mass :=
    py_add (py_mul (of_int Z) (PFloat (PROTON_MASS_MEV K)))
           (py_mul (of_int (mass_number - Z)) (PFloat (NEUTRON_MASS_MEV K))) in
  let actual_mass := py_mul (PFloat atomic_mass) (PFloat (ATOMIC_MASS_UNIT_MEV K)) in
  py_truediv (py_sub theoretical_mass actual_mass)
             (PFloat (ATOMIC_MASS_UNIT_MEV K)).

Definition q_value_alpha_decay (K : Constants) (A_parent Z_parent : int)
    : result pynum :=
  M_parent ← semi_empirical_mass_formula K A_parent Z_parent;
  M_daughter ← semi_empirical_mass_formula K (A_parent - 4) (Z_parent - 2);
  let M_alpha := PFloat 4.002603 in
  Ok (py_mul (py_sub (py_sub M_parent M_daughter) M_alpha)
             (PFloat (ATOMIC_MASS_UNIT_MEV K))).

Definition magic_numbers : list int := [2; 8; 20; 28; 50; 82; 126].

Definition is_magic_nucleus (A Z : int) : bool :=
  let N := A - Z in
  let magic := magic_numbers in
  bool_decide (Z ∈ magic) || bool_decide (N ∈ magic).

Definition nuclear_density (K : Constants) (S : SIConstants) : result pynum :=
  let r0 := py_mul (PFloat (NUCLEAR_RADIUS_CONSTANT K)) (PFloat 1e-15) in
  four_thirds ← py_truediv (of_int 4) (of_int 3);
  let volume_per_nucleon :=
    py_mul (py_mul four_thirds (PFloat PI))
           (py_mul (py_mul r0 r0) r0) in
  py_truediv (PFloat (ATOMIC_MASS_UNIT S)) volume_per_nucleon.

Definition liquid_drop_energy (K : Constants) (A Z : int) : result pynum :=
  BE ← binding_energy_semf A Z;
  Ok (py_add (py_add (py_neg BE)
                     (py_mul (of_int Z) (PFloat (PROTON_MASS_MEV K))))
             (py_mul (of_int (A - Z)) (PFloat (NEUTRON_MASS_MEV K)))).

Definition mass_excess (K : Constants) (A Z : int) : result pynum :=
  atomic_mass_u ← semi_empirical_mass_formula K A Z;
  Ok (py_mul (py_sub atomic_mass_u (of_int A))
             (PFloat (ATOMIC_MASS_UNIT_MEV K))).

(** * Values and predicates used in the statements *)

(** The numbers the SEMF code computes on a positive mass number, where no
    operation raises: pairing term, binding energy, predicted mass. *)
Definition delta_real (A Z : int) : R :=
  if (Z mod 2 =? 0) && ((A - Z) mod 2 =? 0) then (11.18 / sqrt (IZR A))%R
  else if (Z mod 2 =? 1) && ((A - Z) mod 2 =? 1) then (-11.18 / sqrt (IZR A))%R
  else 0%R.

Definition be_real (A Z : int) : R :=
  (15.75 * IZR A - 17.8 * Rpower (IZR A) (2 / 3)
   - 0.711 * IZR (Z ^ 2) / Rpower (IZR A) (1 / 3)
   - 23.7 * IZR ((A - 2 * Z) ^ 2) / IZR A
   + delta_real A Z)%R.

Definition mass_real (K : Constants) (A Z : int) : R :=
  ((IZR Z * PROTON_MASS_MEV K + IZR (A - Z) * NEUTRON_MASS_MEV K - be_real A Z)
   / ATOMIC_MASS_UNIT_MEV K)%R.

(** Values of the kind the constants module supplies (CODATA, rounded);
    used where a statement has to be evaluated at concrete numbers. *)
Definition reference_constants : Constants := {|
  PROTON_MASS_MEV := 938.272;
  NEUTRON_MASS_MEV := 939.565;
  ELECTRON_MASS_MEV := 0.511;
  ATOMIC_MASS_UNIT_MEV := 931.494;
  NUCLEAR_RADIUS_CONSTANT := 1.2;
  COULOMB_CONSTANT := 8.9875517923e9;
  ELEMENTARY_CHARGE := 1.602176634e-19;
  ELECTRON_VOLT := 1.602176634e-19
|}.

(** Pairing term, chosen by the parity of [Z] and of [N = A - Z] alone. *)
Definition pairing_spec (A Z : int) : R :=
  let N := A - Z in
  if Z.even Z && Z.even N then (11.18 / sqrt (IZR A))%R
  else if Z.odd Z && Z.odd N then (-11.18 / sqrt (IZR A))%R
  else 0%R.

Definition semf_spec (A Z : int) : R :=
  (15.75 * IZR A
   - 17.8 * Rpower (IZR A) (2 / 3)
   - 0.711 * IZR Z ^ 2 / Rpower (IZR A) (1 / 3)
   - 23.7 * (IZR A - 2 * IZR Z) ^ 2 / IZR A
   + pairing_spec A Z)%R.

Definition is_complex (x : pynum) : Prop :=
  match x with
  | PFloat _ => False
  | PComplex _ _ => True
  end.

(** [BE(A, Z) - BE(A', Z')], both operands evaluated left to right. *)
Definition be_difference (A Z A' Z' : int) : result pynum :=
  b ← binding_energy_semf A Z;
  b' ← binding_energy_semf A' Z';
  Ok (py_sub b b').

Definition arith_error (e : pyexn) : Prop :=
  e = ZeroDivisionError \/ e = ValueError "math domain error".

Definition raises_arith_only {T : Type} (m : result T) : Prop :=
  forall e, m = Raise e -> arith_error e.

Definition sep_nonpositive (particle : string) (Z A : int) : Prop :=
  exists v, separation_energy A Z particle = Ok (PFloat v) /\ (v <= 0)%R.

Definition sep_positive (particle : string) (Z A : int) : Prop :=
  exists v, separation_energy A Z particle = Ok (PFloat v) /\ (0 < v)%R.

(** What the scan from [A = Z] returns: one less than the first [A] below
    the ceiling whose separation energy is not positive, else the sentinel. *)
Definition drip_line_spec (particle : string) (Z r : int) : Prop :=
  (exists A', Z <= A' < 300 /\ sep_nonpositive particle Z A' /\
              (forall A, Z <= A < A' -> sep_positive particle Z A) /\
              r = A' - 1) \/
  ((forall A, Z <= A < 300 -> sep_positive particle Z A) /\ r = 300).

Definition drip_body (particle : string) (Z A : int) : result (option int) :=
  S ← separation_energy A Z particle;
  c ← py_le S (of_int 0);
  Ok (if c : bool then Some (A - 1) else None).

(** The coefficient [coulomb_energy] puts in front of [Z^2 / A^(1/3)]: the
    electrostatic energy of a uniformly charged sphere of radius
    [r0 * A^(1/3)] fm, in MeV. *)
Definition coulomb_coefficient (K : Constants) : R :=
  (3 / 5 * COULOMB_CONSTANT K * (ELEMENTARY_CHARGE K * ELEMENTARY_CHARGE K)
   / (NUCLEAR_RADIUS_CONSTANT K * 1e-15) / ELECTRON_VOLT K / 1e6)%R.

(** The body of the inner loop and the whole inner loop, named. *)
Definition valley_step (K : Constants) (A : int) (st : min_mass_t * int)
    : int -> result (min_mass_t * int) :=
  let '(min_mass, best_Z) := st in fun Z =>
  mass ← semi_empirical_mass_formula K A Z;
  c ← lt_min_mass mass min_mass;
  Ok (if c : bool then (Fin mass, Z) else (min_mass, best_Z)).

Definition valley_inner (K : Constants) (A : int) : result int :=
  st ← for_fold (py_range 1 A) (valley_step K A) (Inf, 1);
  Ok (snd st).

(** The specification's reading of an entry: [z] is the least minimiser of
    the predicted mass over [1 .. A-1]. *)
Definition least_minimiser (K : Constants) (A z : int) : Prop :=
  1 <= z <= A - 1 /\
  exists m, semi_empirical_mass_formula K A z = Ok (PFloat m) /\
    forall z', 1 <= z' <= A - 1 ->
      exists m', semi_empirical_mass_formula K A z' = Ok (PFloat m') /\
                 (m <= m')%R /\ (z' < z -> (m < m')%R).

(** What the entry for mass number [A] is. *)
Definition valley_entry (K : Constants) (A z : int) : Prop :=
  (2 <= A -> least_minimiser K A z) /\ (A <= 1 -> z = 1).

(** The number [atomic_number_from_mass] returns. *)
Definition approx_Z (A : int) : int :=
  if A <=? 20 then A / 2
  else if A <=? 40 then b64_int (b64_div (b64_of_int A) (b64_lit 21 10))
  else if A <=? 100 then b64_int (b64_div (b64_of_int A) (b64_lit 22 10))
  else b64_int (b64_div (b64_of_int A) (b64_lit 24 10)).

(** The quotients [A // 2], [A // 2.1], [A // 2.2], [A // 2.4] taken
    exactly, without floats. *)
Definition exact_quotient_Z (A : int) : int :=
  if A <=? 20 then A / 2
  else if A <=? 40 then 10 * A / 21
  else if A <=? 100 then 5 * A / 11
  else 5 * A / 12.

(** [p] holds at [A], [A + 1], ..., [A + n - 1]. *)
Fixpoint all_from (n : nat) (A : int) (p : int -> bool) : bool :=
  match n with
  | O => true
  | S n' => p A && all_from n' (A + 1) p
  end.

(** Whether [atomic_number_from_mass A] is the exact quotient, or, at
    [A] = 55, 66 and 99, one less. *)
Definition approx_Z_as_expected (A : int) : bool :=
  approx_Z A =?
  exact_quotient_Z A - (if (A =? 55) || (A =? 66) || (A =? 99) then 1 else 0).

(** SI values to go with [reference_constants]. *)
Definition reference_si_constants : SIConstants := {|
  PROTON_MASS := 1.67262192e-27;
  NEUTRON_MASS := 1.67492750e-27;
  ATOMIC_MASS_UNIT := 1.66053907e-27;
  SPEED_OF_LIGHT := 299792458
|}.

(** SI values that agree exactly with [reference_constants], in units
    where the speed of light is 1. *)
Definition matching_si_constants : SIConstants := {|
  PROTON_MASS := 938.272 * 1.602176634e-13;
  NEUTRON_MASS := 939.565 * 1.602176634e-13;
  ATOMIC_MASS_UNIT := 931.494 * 1.602176634e-13;
  SPEED_OF_LIGHT := 1
|}.

(** * Properties *)

Lemma bind_Ok {T U : Type} (v : T) (f : T -> result U) : (Ok v ≫= f) = f v.
Proof. reflexivity. Qed.

Lemma bind_Raise {T U : Type} (e : pyexn) (f : T -> result U) :
  (Raise e ≫= f) = Raise e.
Proof. reflexivity. Qed.

(** One step of a monadic computation whose head is already a value. *)
Ltac mstep := rewrite ?bind_Ok, ?bind_Raise.

(** ** Arithmetic on valid operands *)

Lemma truediv_float (a b : R) :
  b <> 0%R -> py_truediv (PFloat a) (PFloat b) = Ok (PFloat (a / b)).
Proof.
  intros Hb. unfold py_truediv.
  destruct (decide (b = 0%R)); [contradiction | reflexivity].
Qed.

Lemma truediv_float_zero (a : R) :
  py_truediv (PFloat a) (PFloat 0) = Raise ZeroDivisionError.
Proof.
  unfold py_truediv. destruct (decide (0%R = 0%R)); [reflexivity | contradiction].
Qed.

Lemma math_sqrt_nonneg (a : int) :
  0 <= a -> math_sqrt a = Ok (PFloat (sqrt (IZR a))).
Proof.
  intros Ha. unfold math_sqrt. destruct (Z.ltb_spec a 0); [lia | reflexivity].
Qed.

Lemma math_sqrt_neg (a : int) :
  a < 0 -> math_sqrt a = Raise (ValueError "math domain error").
Proof.
  intros Ha. unfold math_sqrt. destruct (Z.ltb_spec a 0); [reflexivity | lia].
Qed.

Lemma py_pow_pos (b : int) (e : R) :
  0 < b -> py_pow b e = PFloat (Rpower (IZR b) e).
Proof.
  intros Hb. unfold py_pow. destruct (Z.ltb_spec 0 b); [reflexivity | lia].
Qed.

Lemma py_pow_neg (b : int) (e : R) :
  b < 0 ->
  py_pow b e = PComplex (Rpower (IZR (- b)) e * cos (PI * e))
                        (Rpower (IZR (- b)) e * sin (PI * e)).
Proof.
  intros Hb. unfold py_pow.
  destruct (Z.ltb_spec 0 b); [lia |].
  destruct (Z.eqb_spec b 0); [lia | reflexivity].
Qed.

Lemma Rpower_nonzero (x e : R) : Rpower x e <> 0%R.
Proof. unfold Rpower. pose proof (exp_pos (e * ln x)). lra. Qed.

Lemma IZR_pos_nonzero (a : int) : 1 <= a -> IZR a <> 0%R.
Proof. intros Ha. apply not_0_IZR. lia. Qed.

Lemma sqrt_IZR_nonzero (a : int) : 1 <= a -> sqrt (IZR a) <> 0%R.
Proof.
  intros Ha. assert (0 < sqrt (IZR a))%R; [| lra].
  apply sqrt_lt_R0. apply IZR_lt. lia.
Qed.

(** ** The value of the SEMF sum on a positive mass number *)

Lemma pairing_energy_pos (A Z : int) :
  1 <= A -> pairing_energy A Z = Ok (PFloat (delta_real A Z)).
Proof.
  intros HA. unfold pairing_energy, delta_real.
  rewrite (math_sqrt_nonneg A) by lia. mstep.
  rewrite !truediv_float by (apply sqrt_IZR_nonzero; lia).
  destruct (_ && _); [reflexivity |].
  destruct (_ && _); reflexivity.
Qed.

Lemma binding_energy_semf_pos (A Z : int) :
  1 <= A -> binding_energy_semf A Z = Ok (PFloat (be_real A Z)).
Proof.
  intros HA. unfold binding_energy_semf, be_real, delta_real.
  rewrite (math_sqrt_nonneg A) by lia. mstep.
  rewrite !truediv_float by (apply sqrt_IZR_nonzero; lia).
  rewrite !py_pow_pos by lia. unfold of_int, py_mul.
  rewrite !truediv_float by (apply Rpower_nonzero || (apply IZR_pos_nonzero; lia)).
  destruct (_ && _); [reflexivity |].
  destruct (_ && _); reflexivity.
Qed.

Lemma semi_empirical_mass_formula_pos (K : Constants) (A Z : int) :
  1 <= A -> ATOMIC_MASS_UNIT_MEV K <> 0%R ->
  semi_empirical_mass_formula K A Z = Ok (PFloat (mass_real K A Z)).
Proof.
  intros HA HK. unfold semi_empirical_mass_formula, mass_real, be_real, delta_real.
  rewrite (math_sqrt_nonneg A) by lia. mstep.
  rewrite !truediv_float by (apply sqrt_IZR_nonzero; lia).
  rewrite !py_pow_pos by lia. unfold of_int, py_mul.
  rewrite !truediv_float by (apply Rpower_nonzero || (apply IZR_pos_nonzero; lia)).
  destruct (_ && _);
    [mstep; cbn [py_add py_sub]; rewrite truediv_float by assumption;
     reflexivity |].
  destruct (_ && _); mstep; cbn [py_add py_sub];
    rewrite truediv_float by assumption; reflexivity.
Qed.

(** ** The five-term formula as the specification writes it *)

Lemma delta_real_spec (A Z : int) : delta_real A Z = pairing_spec A Z.
Proof.
  unfold delta_real, pairing_spec. cbv zeta.
  rewrite !Zeven_mod, !Zodd_mod. reflexivity.
Qed.

Lemma be_real_spec (A Z : int) : be_real A Z = semf_spec A Z.
Proof.
  unfold be_real, semf_spec. rewrite delta_real_spec.
  rewrite <- (mult_IZR 2 Z), <- minus_IZR.
  rewrite !pow_IZR. reflexivity.
Qed.

(** C2: on a valid nuclide [binding_energy_semf] is the five-term sum with
    the pairing term picked by the parity of [Z] and [N], and
    [semi_empirical_mass_formula] is
    [(Z*m_p + (A-Z)*m_n - BE) / ATOMIC_MASS_UNIT_MEV] with the same sum as
    [BE]. *)
Theorem semf_five_term_formula (K : Constants) (A Z : int) :
  1 <= A -> 0 <= Z <= A -> ATOMIC_MASS_UNIT_MEV K <> 0%R ->
  binding_energy_semf A Z = Ok (PFloat (semf_spec A Z)) /\
  semi_empirical_mass_formula K A Z =
    Ok (PFloat ((IZR Z * PROTON_MASS_MEV K + IZR (A - Z) * NEUTRON_MASS_MEV K
                 - semf_spec A Z) / ATOMIC_MASS_UNIT_MEV K)%R).
Proof.
  intros HA _ HK. split.
  - rewrite binding_energy_semf_pos by assumption. now rewrite be_real_spec.
  - rewrite semi_empirical_mass_formula_pos by assumption.
    unfold mass_real. now rewrite be_real_spec.
Qed.

Lemma semf_five_term_formula_witness :
  binding_energy_semf 4 2 = Ok (PFloat (semf_spec 4 2)) /\
  semi_empirical_mass_formula reference_constants 4 2 =
    Ok (PFloat ((IZR 2 * PROTON_MASS_MEV reference_constants
                 + IZR (4 - 2) * NEUTRON_MASS_MEV reference_constants
                 - semf_spec 4 2) / ATOMIC_MASS_UNIT_MEV reference_constants)%R).
Proof.
  apply (semf_five_term_formula reference_constants 4 2); [lia | lia |].
  simpl. lra.
Defined.

(** ** Non-positive mass numbers *)

Lemma parity_same (A Z : int) :
  A mod 2 = 0 ->
  (Z mod 2 =? 0) && ((A - Z) mod 2 =? 0) = true \/
  ((Z mod 2 =? 0) && ((A - Z) mod 2 =? 0) = false /\
   (Z mod 2 =? 1) && ((A - Z) mod 2 =? 1) = true).
Proof.
  intros HA.
  destruct (Z.eqb_spec (Z mod 2) 0) as [HZ | HZ];
    destruct (Z.eqb_spec (Z mod 2) 1);
    destruct (Z.eqb_spec ((A - Z) mod 2) 0);
    destruct (Z.eqb_spec ((A - Z) mod 2) 1); cbn; auto; exfalso;
    Z.to_euclidean_division_equations; lia.
Qed.

Lemma parity_mixed (A Z : int) :
  A mod 2 = 1 ->
  (Z mod 2 =? 0) && ((A - Z) mod 2 =? 0) = false /\
  (Z mod 2 =? 1) && ((A - Z) mod 2 =? 1) = false.
Proof.
  intros HA.
  destruct (Z.eqb_spec (Z mod 2) 0) as [HZ | HZ];
    destruct (Z.eqb_spec (Z mod 2) 1);
    destruct (Z.eqb_spec ((A - Z) mod 2) 0);
    destruct (Z.eqb_spec ((A - Z) mod 2) 1); cbn; auto; exfalso;
    Z.to_euclidean_division_equations; lia.
Qed.

Lemma math_sqrt_zero : math_sqrt 0 = Ok (PFloat 0).
Proof. rewrite math_sqrt_nonneg by lia. now rewrite sqrt_0. Qed.

(** At mass number zero the pairing branch is always taken and divides by
    [math.sqrt(0)]. *)
Lemma binding_energy_semf_zero (Z : int) :
  binding_energy_semf 0 Z = Raise ZeroDivisionError.
Proof.
  unfold binding_energy_semf. rewrite math_sqrt_zero. mstep.
  rewrite !truediv_float_zero.
  destruct (parity_same 0 Z) as [-> | [-> ->]]; reflexivity.
Qed.

Lemma semi_empirical_mass_formula_zero (K : Constants) (Z : int) :
  semi_empirical_mass_formula K 0 Z = Raise ZeroDivisionError.
Proof.
  unfold semi_empirical_mass_formula. rewrite math_sqrt_zero. mstep.
  rewrite !truediv_float_zero.
  destruct (parity_same 0 Z) as [-> | [-> ->]]; reflexivity.
Qed.

Lemma binding_energy_semf_neg_even (A Z : int) :
  A < 0 -> A mod 2 = 0 ->
  binding_energy_semf A Z = Raise (ValueError "math domain error").
Proof.
  intros HA Hev. unfold binding_energy_semf.
  rewrite math_sqrt_neg by assumption. mstep.
  destruct (parity_same A Z Hev) as [-> | [-> ->]]; reflexivity.
Qed.

Lemma semi_empirical_mass_formula_neg_even (K : Constants) (A Z : int) :
  A < 0 -> A mod 2 = 0 ->
  semi_empirical_mass_formula K A Z = Raise (ValueError "math domain error").
Proof.
  intros HA Hev. unfold semi_empirical_mass_formula.
  rewrite math_sqrt_neg by assumption. mstep.
  destruct (parity_same A Z Hev) as [-> | [-> ->]]; reflexivity.
Qed.

Lemma truediv_by_complex (x : pynum) (c d : R) :
  c <> 0%R -> exists re im, py_truediv x (PComplex c d) = Ok (PComplex re im).
Proof.
  intros Hc. unfold py_truediv.
  destruct x; cbn [re_part im_part];
    (destruct (decide (c = 0%R /\ d = 0%R)) as [[? _] | _];
     [contradiction | eauto]).
Qed.

Lemma truediv_complex_by_float (a b r : R) :
  r <> 0%R -> exists re im, py_truediv (PComplex a b) (PFloat r) = Ok (PComplex re im).
Proof.
  intros Hr. unfold py_truediv. cbn [re_part im_part].
  destruct (decide (r = 0%R /\ 0%R = 0%R)) as [[? _] | _];
    [contradiction | eauto].
Qed.

Lemma cube_root_neg_re_nonzero (A : int) :
  (Rpower (IZR (- A)) (1 / 3) * cos (PI * (1 / 3)) <> 0)%R.
Proof.
  replace (PI * (1 / 3))%R with (PI / 3)%R by lra.
  rewrite cos_PI3. pose proof (Rpower_nonzero (IZR (- A)) (1 / 3)). lra.
Qed.

(** An odd negative mass number raises nothing: the fractional powers are
    complex and so is the result. *)
Lemma binding_energy_semf_neg_odd (A Z : int) :
  A < 0 -> A mod 2 = 1 ->
  exists re im, binding_energy_semf A Z = Ok (PComplex re im).
Proof.
  intros HA Hodd. unfold binding_energy_semf.
  destruct (parity_mixed A Z Hodd) as [-> ->]. mstep.
  rewrite !py_pow_neg by assumption.
  destruct (truediv_by_complex (py_mul (PFloat 0.711) (of_int (Z ^ 2))) _
              (Rpower (IZR (- A)) (1 / 3) * sin (PI * (1 / 3)))
              (cube_root_neg_re_nonzero A)) as (c1 & c2 & ->). mstep.
  unfold of_int. cbn [py_mul].
  rewrite truediv_float by (apply not_0_IZR; lia). mstep.
  cbn. eauto.
Qed.

Lemma semi_empirical_mass_formula_neg_odd (K : Constants) (A Z : int) :
  A < 0 -> A mod 2 = 1 -> ATOMIC_MASS_UNIT_MEV K <> 0%R ->
  exists re im, semi_empirical_mass_formula K A Z = Ok (PComplex re im).
Proof.
  intros HA Hodd HK. unfold semi_empirical_mass_formula.
  destruct (parity_mixed A Z Hodd) as [-> ->]. mstep.
  rewrite !py_pow_neg by assumption.
  destruct (truediv_by_complex (py_mul (PFloat 0.711) (of_int (Z ^ 2))) _
              (Rpower (IZR (- A)) (1 / 3) * sin (PI * (1 / 3)))
              (cube_root_neg_re_nonzero A)) as (c1 & c2 & ->). mstep.
  unfold of_int. cbn [py_mul].
  rewrite truediv_float by (apply not_0_IZR; lia). mstep.
  cbn [py_mul py_add py_sub of_int re_part im_part].
  apply truediv_complex_by_float; assumption.
Qed.

(** C3 (as amended): no "invalid nuclide" condition exists.  At [A = 0] both
    functions raise [ZeroDivisionError] from the pairing branch; at an even
    [A < 0] both raise [ValueError] ("math domain error") from [math.sqrt];
    at an odd [A < 0] neither raises and a complex number comes back. *)
Theorem nonpositive_mass_number_outcomes (K : Constants) (A Z : int) :
  A <= 0 ->
  (A = 0 ->
     binding_energy_semf A Z = Raise ZeroDivisionError /\
     semi_empirical_mass_formula K A Z = Raise ZeroDivisionError) /\
  (A < 0 -> A mod 2 = 0 ->
     binding_energy_semf A Z = Raise (ValueError "math domain error") /\
     semi_empirical_mass_formula K A Z = Raise (ValueError "math domain error")) /\
  (A < 0 -> A mod 2 = 1 ->
     (exists v, binding_energy_semf A Z = Ok v /\ is_complex v) /\
     (ATOMIC_MASS_UNIT_MEV K <> 0%R ->
      exists v, semi_empirical_mass_formula K A Z = Ok v /\ is_complex v)).
Proof.
  intros _. split; [| split].
  - intros ->. split.
    + apply binding_energy_semf_zero.
    + apply semi_empirical_mass_formula_zero.
  - intros Hneg Hev. split.
    + now apply binding_energy_semf_neg_even.
    + now apply semi_empirical_mass_formula_neg_even.
  - intros Hneg Hodd. split.
    + destruct (binding_energy_semf_neg_odd A Z) as (re & im & ->); [done.. |].
      eexists; split; [reflexivity | exact I].
    + intros HK.
      destruct (semi_empirical_mass_formula_neg_odd K A Z) as (re & im & ->);
        [done.. |].
      eexists; split; [reflexivity | exact I].
Qed.

Lemma nonpositive_mass_number_outcomes_witness :
  binding_energy_semf 0 0 = Raise ZeroDivisionError /\
  semi_empirical_mass_formula reference_constants 0 0 = Raise ZeroDivisionError.
Proof.
  apply (nonpositive_mass_number_outcomes reference_constants 0 0); [lia | reflexivity].
Defined.

(** C3 fails as stated: at [A = -1] both functions return a value. *)
Lemma invalid_nuclide_not_rejected :
  -1 <= 0 /\
  (exists v, binding_energy_semf (-1) 0 = Ok v) /\
  (exists v, semi_empirical_mass_formula reference_constants (-1) 0 = Ok v).
Proof.
  split; [lia |]. split.
  - destruct (binding_energy_semf_neg_odd (-1) 0) as (re & im & ->);
      [lia | reflexivity | eauto].
  - destruct (semi_empirical_mass_formula_neg_odd reference_constants (-1) 0)
      as (re & im & ->); [lia | reflexivity | simpl; lra | eauto].
Qed.

(** ** Separation energies *)

Lemma be_difference_pos (A Z A' Z' : int) :
  1 <= A -> 1 <= A' ->
  be_difference A Z A' Z' = Ok (PFloat (be_real A Z - be_real A' Z')).
Proof.
  intros HA HA'. unfold be_difference.
  rewrite !binding_energy_semf_pos by assumption. reflexivity.
Qed.

Lemma separation_energy_neutron (A Z : int) :
  separation_energy A Z "neutron" = be_difference A Z (A - 1) Z.
Proof. reflexivity. Qed.

Lemma separation_energy_proton (A Z : int) :
  separation_energy A Z "proton" = be_difference A Z (A - 1) (Z - 1).
Proof. reflexivity. Qed.

Lemma separation_energy_alpha (A Z : int) :
  separation_energy A Z "alpha" =
  (d ← be_difference A Z (A - 4) (Z - 2); Ok (py_sub d (PFloat 28.3))).
Proof.
  unfold separation_energy, be_difference. cbn [String.eqb Ascii.eqb Bool.eqb].
  destruct (binding_energy_semf A Z); [| reflexivity]. mstep.
  destruct (binding_energy_semf (A - 4) (Z - 2)); reflexivity.
Qed.

Lemma be_difference_empty_daughter (A Z Z' : int) :
  1 <= A -> be_difference A Z 0 Z' = Raise ZeroDivisionError.
Proof.
  intros HA. unfold be_difference.
  rewrite (binding_energy_semf_pos A Z) by assumption. mstep.
  now rewrite binding_energy_semf_zero.
Qed.

(** C5 (as amended): on a valid nuclide whose daughter still has a positive
    mass number -- [A >= 2] for neutron and proton, [A >= 3] for two
    neutrons, [A >= 5] for alpha -- each separation energy is the number
    [BE(A,Z) - BE(A-k,Z-j)] (the alpha case less 28.3), with [BE] the values
    [binding_energy_semf] returns for parent and daughter. *)
Theorem separation_energy_formulas (A Z : int) :
  1 <= A -> 0 <= Z <= A ->
  (2 <= A ->
     exists b bn bp : R,
       binding_energy_semf A Z = Ok (PFloat b) /\
       binding_energy_semf (A - 1) Z = Ok (PFloat bn) /\
       binding_energy_semf (A - 1) (Z - 1) = Ok (PFloat bp) /\
       separation_energy A Z "neutron" = Ok (PFloat (b - bn)) /\
       separation_energy A Z "proton" = Ok (PFloat (b - bp))) /\
  (3 <= A ->
     exists b b2 : R,
       binding_energy_semf A Z = Ok (PFloat b) /\
       binding_energy_semf (A - 2) Z = Ok (PFloat b2) /\
       two_neutron_separation_energy A Z = Ok (PFloat (b - b2))) /\
  (5 <= A ->
     exists b ba : R,
       binding_energy_semf A Z = Ok (PFloat b) /\
       binding_energy_semf (A - 4) (Z - 2) = Ok (PFloat ba) /\
       separation_energy A Z "alpha" = Ok (PFloat (b - ba - 28.3))).
Proof.
  intros HA _. split; [| split].
  - intros H2. exists (be_real A Z), (be_real (A - 1) Z), (be_real (A - 1) (Z - 1)).
    rewrite separation_energy_neutron, separation_energy_proton.
    rewrite !be_difference_pos by lia.
    rewrite (binding_energy_semf_pos A Z), (binding_energy_semf_pos (A - 1) Z),
      (binding_energy_semf_pos (A - 1) (Z - 1)) by lia.
    auto.
  - intros H3. exists (be_real A Z), (be_real (A - 2) Z).
    change (two_neutron_separation_energy A Z)
      with (be_difference A Z (A - 2) Z).
    rewrite be_difference_pos by lia.
    rewrite (binding_energy_semf_pos A Z), (binding_energy_semf_pos (A - 2) Z)
      by lia.
    auto.
  - intros H5. exists (be_real A Z), (be_real (A - 4) (Z - 2)).
    rewrite separation_energy_alpha. rewrite be_difference_pos by lia.
    rewrite (binding_energy_semf_pos A Z),
      (binding_energy_semf_pos (A - 4) (Z - 2)) by lia.
    auto.
Qed.

Lemma separation_energy_formulas_witness :
  exists b ba : R,
    binding_energy_semf 6 3 = Ok (PFloat b) /\
    binding_energy_semf (6 - 4) (3 - 2) = Ok (PFloat ba) /\
    separation_energy 6 3 "alpha" = Ok (PFloat (b - ba - 28.3)).
Proof.
  apply (separation_energy_formulas 6 3); lia.
Defined.

(** C5 fails as stated: on the valid nuclides (1,1), (2,1) and (4,2) the
    daughter has mass number 0 and the call raises [ZeroDivisionError]
    instead of returning a difference, and at (3,1) the alpha daughter has
    mass number -1 and the result is a complex number. *)
Lemma separation_energy_light_nuclei :
  separation_energy 1 1 "neutron" = Raise ZeroDivisionError /\
  separation_energy 1 1 "proton" = Raise ZeroDivisionError /\
  two_neutron_separation_energy 2 1 = Raise ZeroDivisionError /\
  separation_energy 4 2 "alpha" = Raise ZeroDivisionError /\
  (exists v, separation_energy 3 1 "alpha" = Ok v /\ is_complex v).
Proof.
  split; [rewrite separation_energy_neutron;
          apply (be_difference_empty_daughter 1 1 1); lia |].
  split; [rewrite separation_energy_proton;
          apply (be_difference_empty_daughter 1 1 (1 - 1)); lia |].
  split; [apply (be_difference_empty_daughter 2 1 1); lia |].
  split.
  - rewrite separation_energy_alpha. change (4 - 4) with 0.
    rewrite be_difference_empty_daughter by lia. reflexivity.
  - rewrite separation_energy_alpha. unfold be_difference.
    rewrite (binding_energy_semf_pos 3 1) by lia. mstep.
    destruct (binding_energy_semf_neg_odd (3 - 4) (1 - 2)) as (re & im & ->);
      [lia | reflexivity |].
    eexists. split; [reflexivity | exact I].
Qed.

(** ** Which exceptions the arithmetic can raise *)

Lemma raises_arith_only_Ok {T : Type} (v : T) : raises_arith_only (Ok v).
Proof. intros e H. discriminate. Qed.

Lemma raises_arith_only_bind {T U : Type} (m : result T) (f : T -> result U) :
  raises_arith_only m -> (forall v, raises_arith_only (f v)) ->
  raises_arith_only (m ≫= f).
Proof.
  intros Hm Hf e. destruct m as [v | e']; cbn.
  - apply Hf.
  - intros [= ->]. now apply Hm.
Qed.

Lemma raises_arith_only_truediv (x y : pynum) :
  raises_arith_only (py_truediv x y).
Proof.
  intros e. unfold py_truediv.
  destruct x, y; cbn [re_part im_part]; case_decide;
    intros [= <-]; now left.
Qed.

Lemma raises_arith_only_sqrt (a : int) : raises_arith_only (math_sqrt a).
Proof.
  intros e. unfold math_sqrt. destruct (a <? 0); intros [= <-]. now right.
Qed.

Create HintDb raises.

#[local] Hint Resolve raises_arith_only_Ok raises_arith_only_truediv
  raises_arith_only_sqrt : raises.

Ltac raises_arith :=
  repeat first
    [ apply raises_arith_only_bind; [| intros ?]
    | match goal with |- raises_arith_only (if ?b then _ else _) => destruct b end
    | solve [auto with raises] ].

Lemma binding_energy_semf_raises (A Z : int) :
  raises_arith_only (binding_energy_semf A Z).
Proof. unfold binding_energy_semf. raises_arith. Qed.

Lemma semi_empirical_mass_formula_raises (K : Constants) (A Z : int) :
  raises_arith_only (semi_empirical_mass_formula K A Z).
Proof. unfold semi_empirical_mass_formula. raises_arith. Qed.

Lemma be_difference_raises (A Z A' Z' : int) :
  raises_arith_only (be_difference A Z A' Z').
Proof.
  unfold be_difference.
  pose proof binding_energy_semf_raises. raises_arith.
Qed.

Lemma separation_energy_raises (A Z : int) (particle : string) :
  particle = "neutron" \/ particle = "proton" \/ particle = "alpha" ->
  raises_arith_only (separation_energy A Z particle).
Proof.
  pose proof be_difference_raises.
  intros [-> | [-> | ->]].
  - rewrite separation_energy_neutron. auto.
  - rewrite separation_energy_proton. auto.
  - rewrite separation_energy_alpha. raises_arith.
Qed.

Lemma q_value_beta_decay_raises (K : Constants) (A Z : int) (decay_type : string) :
  decay_type = "beta-" \/ decay_type = "beta+" ->
  raises_arith_only (q_value_beta_decay K A Z decay_type).
Proof.
  pose proof (semi_empirical_mass_formula_raises K).
  intros [-> | ->]; unfold q_value_beta_decay;
    cbn [String.eqb Ascii.eqb Bool.eqb]; raises_arith.
Qed.

Lemma unknown_option_not_arith (prefix t : string) :
  prefix = "Unknown particle type: " \/ prefix = "Unknown decay type: " ->
  ~ arith_error (ValueError (prefix ++ t)).
Proof.
  intros [-> | ->] [H | H]; discriminate H.
Qed.

(** C8: a particle string outside neutron/proton/alpha, and a decay type
    outside beta-/beta+, raise [ValueError] with a message that names the
    string; the supported strings never raise that error. *)
Theorem unsupported_option_errors (K : Constants) (A Z : int) (s : string) :
  (s <> "neutron" -> s <> "proton" -> s <> "alpha" ->
   separation_energy A Z s =
     Raise (ValueError ("Unknown particle type: " ++ s))) /\
  (s <> "beta-" -> s <> "beta+" ->
   q_value_beta_decay K A Z s =
     Raise (ValueError ("Unknown decay type: " ++ s))) /\
  (s = "neutron" \/ s = "proton" \/ s = "alpha" ->
   forall t, separation_energy A Z s <>
             Raise (ValueError ("Unknown particle type: " ++ t))) /\
  (s = "beta-" \/ s = "beta+" ->
   forall t, q_value_beta_decay K A Z s <>
             Raise (ValueError ("Unknown decay type: " ++ t))).
Proof.
  split; [| split; [| split]].
  - intros Hn Hp Ha. unfold separation_energy.
    apply String.eqb_neq in Hn, Hp, Ha. now rewrite Hn, Hp, Ha.
  - intros Hm Hp. unfold q_value_beta_decay.
    apply String.eqb_neq in Hm, Hp. now rewrite Hm, Hp.
  - intros Hs t Heq. apply separation_energy_raises in Heq; [| assumption].
    revert Heq. apply unknown_option_not_arith. now left.
  - intros Hs t Heq. apply q_value_beta_decay_raises in Heq; [| assumption].
    revert Heq. apply unknown_option_not_arith. now right.
Qed.

Lemma unsupported_option_errors_witness :
  separation_energy 4 2 "deuteron" =
    Raise (ValueError "Unknown particle type: deuteron") /\
  q_value_beta_decay reference_constants 4 2 "gamma" =
    Raise (ValueError "Unknown decay type: gamma").
Proof.
  split.
  - apply (unsupported_option_errors reference_constants 4 2 "deuteron");
      discriminate.
  - apply (unsupported_option_errors reference_constants 4 2 "gamma");
      discriminate.
Defined.

(** ** Drip-line search *)

Lemma drip_body_float (particle : string) (Z A : int) (v : R) :
  separation_energy A Z particle = Ok (PFloat v) ->
  drip_body particle Z A = Ok (if bool_decide (v <= 0)%R then Some (A - 1) else None).
Proof. intros H. unfold drip_body. rewrite H. reflexivity. Qed.

Lemma drip_scan (particle : string) (Z : int) (n : nat) :
  forall s : int,
  (forall A, s <= A < s + Z.of_nat n ->
     exists v, separation_energy A Z particle = Ok (PFloat v)) ->
  exists r,
    for_return (seqZ s (Z.of_nat n)) (drip_body particle Z) (Ok 300) = Ok r /\
    ((exists A', s <= A' < s + Z.of_nat n /\ sep_nonpositive particle Z A' /\
                 (forall A, s <= A < A' -> sep_positive particle Z A) /\
                 r = A' - 1) \/
     ((forall A, s <= A < s + Z.of_nat n -> sep_positive particle Z A) /\
      r = 300)).
Proof.
  induction n as [| n IH]; intros s Hdef.
  - exists 300. split; [reflexivity |]. right. split; [intros; lia | reflexivity].
  - rewrite seqZ_cons by lia.
    replace (Z.pred (Z.of_nat (S n))) with (Z.of_nat n) by lia.
    destruct (Hdef s) as [v Hv]; [lia |].
    cbn [for_return]. rewrite (drip_body_float _ _ _ _ Hv). mstep.
    case_bool_decide as Hle.
    + exists (s - 1). split; [reflexivity |]. left. exists s.
      split; [lia |]. split; [exists v; auto |]. split; [intros; lia | done].
    + destruct (IH (Z.succ s)) as (r & Hr & Hspec); [intros; apply Hdef; lia |].
      exists r. split; [exact Hr |].
      assert (Hpos : sep_positive particle Z s) by (exists v; split; [done | lra]).
      destruct Hspec as [(A' & HA' & Hnp & Hbefore & ->) | [Hall ->]].
      * left. exists A'. split; [lia |]. split; [done |]. split; [| done].
        intros A HA. destruct (decide (A = s)) as [-> | ]; [done |].
        apply Hbefore; lia.
      * right. split; [| done]. intros A HA.
        destruct (decide (A = s)) as [-> | ]; [done |]. apply Hall; lia.
Qed.

Lemma drip_range_scan (particle : string) (Z : int) :
  (forall A, Z <= A < 300 ->
     exists v, separation_energy A Z particle = Ok (PFloat v)) ->
  exists r,
    for_return (py_range Z 300) (drip_body particle Z) (Ok 300) = Ok r /\
    drip_line_spec particle Z r.
Proof.
  intros Hdef. unfold py_range, drip_line_spec.
  destruct (Z_le_gt_dec Z 300) as [Hle | Hgt].
  - destruct (drip_scan particle Z (Z.to_nat (300 - Z)) Z) as (r & Hr & Hspec).
    + intros A HA. apply Hdef; lia.
    + rewrite Z2Nat.id in Hr, Hspec by lia.
      replace (Z + (300 - Z)) with 300 in Hspec by lia. eauto.
  - exists 300. split.
    + unfold seqZ. replace (Z.to_nat (300 - Z)) with 0%nat by lia. reflexivity.
    + right. split; [intros; lia | reflexivity].
Qed.

Lemma neutron_defined (Z A : int) :
  2 <= A -> exists v, separation_energy A Z "neutron" = Ok (PFloat v).
Proof.
  intros HA. rewrite separation_energy_neutron, be_difference_pos by lia. eauto.
Qed.

Lemma proton_defined (Z A : int) :
  2 <= A -> exists v, separation_energy A Z "proton" = Ok (PFloat v).
Proof.
  intros HA. rewrite separation_energy_proton, be_difference_pos by lia. eauto.
Qed.

Lemma neutron_drip_line_scan (Z : int) :
  2 <= Z -> exists r, neutron_drip_line Z = Ok r /\ drip_line_spec "neutron" Z r.
Proof.
  intros HZ. apply (drip_range_scan "neutron" Z).
  intros A HA. apply neutron_defined. lia.
Qed.

Lemma proton_drip_line_scan (Z : int) :
  2 <= Z -> exists r, proton_drip_line Z = Ok r /\ drip_line_spec "proton" Z r.
Proof.
  intros HZ. apply (drip_range_scan "proton" Z).
  intros A HA. apply proton_defined. lia.
Qed.

Lemma neutron_drip_line_one : neutron_drip_line 1 = Raise ZeroDivisionError.
Proof.
  unfold neutron_drip_line, py_range. rewrite seqZ_cons by lia.
  cbn [for_return]. rewrite separation_energy_neutron. unfold be_difference.
  rewrite (binding_energy_semf_pos 1 1) by lia. mstep.
  change (1 - 1) with 0. rewrite binding_energy_semf_zero. reflexivity.
Qed.

Lemma proton_drip_line_one : proton_drip_line 1 = Raise ZeroDivisionError.
Proof.
  unfold proton_drip_line, py_range. rewrite seqZ_cons by lia.
  cbn [for_return]. rewrite separation_energy_proton. unfold be_difference.
  rewrite (binding_energy_semf_pos 1 1) by lia. mstep.
  change (1 - 1) with 0. rewrite binding_energy_semf_zero. reflexivity.
Qed.

(** C7 (as amended): for every [Z >= 2] each drip-line search returns, and
    what it returns is [A' - 1] for the least [A'] in [Z .. 299] whose
    separation energy is [<= 0], or the sentinel 300 when the separation
    energy is positive at every [A] scanned. *)
Theorem drip_line_search_result (Z : int) :
  2 <= Z ->
  (exists r, neutron_drip_line Z = Ok r /\ drip_line_spec "neutron" Z r) /\
  (exists r, proton_drip_line Z = Ok r /\ drip_line_spec "proton" Z r).
Proof.
  intros HZ. split.
  - now apply neutron_drip_line_scan.
  - now apply proton_drip_line_scan.
Qed.

Lemma drip_line_search_result_witness :
  (exists r, neutron_drip_line 8 = Ok r /\ drip_line_spec "neutron" 8 r) /\
  (exists r, proton_drip_line 8 = Ok r /\ drip_line_spec "proton" 8 r).
Proof.
  apply (drip_line_search_result 8). lia.
Defined.

(** C7 fails as stated: at [Z = 1] neither search returns a number. *)
Lemma drip_line_search_raises_at_one :
  (forall r, neutron_drip_line 1 <> Ok r) /\
  (forall r, proton_drip_line 1 <> Ok r).
Proof.
  rewrite neutron_drip_line_one, proton_drip_line_one.
  split; intros r; discriminate.
Qed.

Lemma drip_first_step (particle : string) (Z : int) (s : R) :
  Z < 300 ->
  separation_energy Z Z particle = Ok (PFloat s) ->
  for_return (py_range Z 300) (drip_body particle Z) (Ok 300) =
    if bool_decide (s <= 0)%R then Ok (Z - 1)
    else for_return (py_range (Z + 1) 300) (drip_body particle Z) (Ok 300).
Proof.
  intros HZ Hs. unfold py_range. rewrite seqZ_cons by lia.
  cbn [for_return]. rewrite (drip_body_float _ _ _ _ Hs). mstep.
  replace (Z.pred (300 - Z)) with (300 - (Z + 1)) by lia.
  replace (Z.succ Z) with (Z + 1) by lia.
  now case_bool_decide.
Qed.

(** C9: at [Z = 1] the first scan step asks for the binding energy at mass
    number 0, whose pairing branch divides by [sqrt 0], and both searches
    stop with [ZeroDivisionError].  At [Z >= 2] the first scan step of each
    search only evaluates [binding_energy_semf] at the mass numbers [Z] and
    [Z - 1 >= 1], where it yields numbers; the search returns [Z - 1] if
    that first separation energy is [<= 0] and goes on from [Z + 1]
    otherwise, and in the end it returns a number. *)
Theorem drip_line_first_step (Z : int) :
  (Z = 1 ->
     binding_energy_semf (Z - 1) Z = Raise ZeroDivisionError /\
     binding_energy_semf (Z - 1) (Z - 1) = Raise ZeroDivisionError /\
     neutron_drip_line Z = Raise ZeroDivisionError /\
     proton_drip_line Z = Raise ZeroDivisionError) /\
  (2 <= Z ->
     1 <= Z - 1 /\
     separation_energy Z Z "neutron" =
       Ok (PFloat (semf_spec Z Z - semf_spec (Z - 1) Z)) /\
     separation_energy Z Z "proton" =
       Ok (PFloat (semf_spec Z Z - semf_spec (Z - 1) (Z - 1))) /\
     binding_energy_semf Z Z = Ok (PFloat (semf_spec Z Z)) /\
     binding_energy_semf (Z - 1) Z = Ok (PFloat (semf_spec (Z - 1) Z)) /\
     binding_energy_semf (Z - 1) (Z - 1) =
       Ok (PFloat (semf_spec (Z - 1) (Z - 1))) /\
     (Z < 300 ->
        neutron_drip_line Z =
          (if bool_decide (semf_spec Z Z - semf_spec (Z - 1) Z <= 0)%R
           then Ok (Z - 1)
           else for_return (py_range (Z + 1) 300) (drip_body "neutron" Z)
                           (Ok 300)) /\
        proton_drip_line Z =
          (if bool_decide (semf_spec Z Z - semf_spec (Z - 1) (Z - 1) <= 0)%R
           then Ok (Z - 1)
           else for_return (py_range (Z + 1) 300) (drip_body "proton" Z)
                           (Ok 300))) /\
     (exists rn rp, neutron_drip_line Z = Ok rn /\ proton_drip_line Z = Ok rp)).
Proof.
  split.
  - intros ->. change (1 - 1) with 0.
    rewrite !binding_energy_semf_zero, neutron_drip_line_one, proton_drip_line_one.
    auto.
  - intros HZ.
    assert (Hn : separation_energy Z Z "neutron" =
                 Ok (PFloat (semf_spec Z Z - semf_spec (Z - 1) Z))).
    { rewrite separation_energy_neutron, be_difference_pos by lia.
      now rewrite !be_real_spec. }
    assert (Hp : separation_energy Z Z "proton" =
                 Ok (PFloat (semf_spec Z Z - semf_spec (Z - 1) (Z - 1)))).
    { rewrite separation_energy_proton, be_difference_pos by lia.
      now rewrite !be_real_spec. }
    split; [lia |]. split; [exact Hn |]. split; [exact Hp |].
    rewrite (binding_energy_semf_pos Z Z), (binding_energy_semf_pos (Z - 1) Z),
      (binding_energy_semf_pos (Z - 1) (Z - 1)) by lia.
    rewrite !be_real_spec. do 3 (split; [reflexivity |]).
    split.
    + intros H300. split.
      * apply (drip_first_step "neutron" Z _ H300 Hn).
      * apply (drip_first_step "proton" Z _ H300 Hp).
    + destruct (neutron_drip_line_scan Z HZ) as (rn & Hrn & _).
      destruct (proton_drip_line_scan Z HZ) as (rp & Hrp & _).
      eauto.
Qed.

Lemma drip_line_first_step_witness :
  (neutron_drip_line 1 = Raise ZeroDivisionError /\
   proton_drip_line 1 = Raise ZeroDivisionError) /\
  separation_energy 2 2 "neutron" =
    Ok (PFloat (semf_spec 2 2 - semf_spec (2 - 1) 2)) /\
  (exists rn rp, neutron_drip_line 2 = Ok rn /\ proton_drip_line 2 = Ok rp).
Proof.
  split; [| split].
  - apply (drip_line_first_step 1). reflexivity.
  - apply (drip_line_first_step 2). lia.
  - apply (drip_line_first_step 2). lia.
Defined.

(** ** Beta-decay Q-values *)

Lemma q_value_beta_minus_value (K : Constants) (A Z : int) :
  1 <= A -> ATOMIC_MASS_UNIT_MEV K <> 0%R ->
  q_value_beta_decay K A Z "beta-" =
    Ok (PFloat ((mass_real K A Z - mass_real K A (Z + 1))
                * ATOMIC_MASS_UNIT_MEV K)%R).
Proof.
  intros HA HK. unfold q_value_beta_decay. cbn [String.eqb Ascii.eqb Bool.eqb].
  rewrite !semi_empirical_mass_formula_pos by assumption. reflexivity.
Qed.

(** The beta+ branch subtracts [2 * ELECTRON_MASS_MEV], an energy in MeV,
    from a mass difference in u, and only then converts with
    [ATOMIC_MASS_UNIT_MEV]. *)
Lemma q_value_beta_plus_value (K : Constants) (A Z : int) :
  1 <= A -> ATOMIC_MASS_UNIT_MEV K <> 0%R ->
  q_value_beta_decay K A Z "beta+" =
    Ok (PFloat ((mass_real K A Z - mass_real K A (Z - 1)
                 - 2 * ELECTRON_MASS_MEV K)
                * ATOMIC_MASS_UNIT_MEV K)%R).
Proof.
  intros HA HK. unfold q_value_beta_decay. cbn [String.eqb Ascii.eqb Bool.eqb].
  rewrite !semi_empirical_mass_formula_pos by assumption. reflexivity.
Qed.

(** C4, beta+ at N-14: the value the function returns is about 951 MeV
    below the mass difference in MeV less two electron rest masses. *)
Theorem q_value_beta_plus_unit_slip :
  let K := reference_constants in
  let claimed :=
    ((mass_real K 14 7 - mass_real K 14 (7 - 1)) * ATOMIC_MASS_UNIT_MEV K
     - 2 * ELECTRON_MASS_MEV K)%R in
  exists got,
    q_value_beta_decay K 14 7 "beta+" = Ok (PFloat got) /\
    (got = claimed - 2 * 0.511 * 930.494)%R /\
    got <> claimed.
Proof.
  intros K claimed. eexists. split; [| split].
  - apply q_value_beta_plus_value; [lia | simpl; lra].
  - subst claimed K. cbn [ATOMIC_MASS_UNIT_MEV ELECTRON_MASS_MEV reference_constants].
    lra.
  - subst claimed K. cbn [ATOMIC_MASS_UNIT_MEV ELECTRON_MASS_MEV reference_constants].
    lra.
Qed.

(** ** Binding-energy decomposition *)

Lemma surface_energy_pos (A : int) :
  1 <= A -> surface_energy A = PFloat (17.8 * Rpower (IZR A) (2 / 3)).
Proof. intros HA. unfold surface_energy. now rewrite py_pow_pos by lia. Qed.

Lemma asymmetry_energy_pos (A Z : int) :
  1 <= A ->
  asymmetry_energy A Z = Ok (PFloat (23.7 * (IZR A - 2 * IZR Z) ^ 2 / IZR A)).
Proof.
  intros HA. unfold asymmetry_energy, of_int. cbn [py_mul].
  rewrite truediv_float by (apply IZR_pos_nonzero; lia).
  rewrite <- (mult_IZR 2 Z), <- minus_IZR, pow_IZR. reflexivity.
Qed.

Lemma coulomb_energy_pos (K : Constants) (A Z : int) :
  1 <= A -> NUCLEAR_RADIUS_CONSTANT K <> 0%R -> ELECTRON_VOLT K <> 0%R ->
  coulomb_energy K A Z =
    Ok (PFloat (coulomb_coefficient K * IZR Z ^ 2 / Rpower (IZR A) (1 / 3))).
Proof.
  intros HA Hr HeV. unfold coulomb_energy, nuclear_radius, coulomb_coefficient.
  rewrite py_pow_pos by lia. unfold of_int. cbn [py_mul].
  pose proof (Rpower_nonzero (IZR A) (1 / 3)) as Hp.
  rewrite (truediv_float 3 5) by lra. mstep. cbn [py_mul].
  rewrite truediv_float by (apply Rmult_integral_contrapositive_currified;
    [apply Rmult_integral_contrapositive_currified; assumption | lra]).
  mstep. rewrite truediv_float by assumption. mstep.
  rewrite truediv_float by lra.
  f_equal. f_equal. rewrite pow_IZR. change (Z.of_nat 2) with 2.
  field. repeat split; assumption.
Qed.

(** C1 (as amended): on a valid nuclide [surface_energy], [asymmetry_energy]
    and [pairing_energy] are the surface, asymmetry and pairing terms of
    [binding_energy_semf], which is [15.75*A] less the surface term, less
    [0.711 * Z^2 / A^(1/3)], less the asymmetry term, plus the pairing term;
    [coulomb_energy] is [coulomb_coefficient * Z^2 / A^(1/3)], with the
    coefficient taken from physical constants instead of 0.711. *)
Theorem decomposition_terms (K : Constants) (A Z : int) :
  1 <= A -> 0 <= Z <= A ->
  NUCLEAR_RADIUS_CONSTANT K <> 0%R -> ELECTRON_VOLT K <> 0%R ->
  exists s a p c : R,
    surface_energy A = PFloat s /\
    asymmetry_energy A Z = Ok (PFloat a) /\
    pairing_energy A Z = Ok (PFloat p) /\
    coulomb_energy K A Z = Ok (PFloat c) /\
    s = (17.8 * Rpower (IZR A) (2 / 3))%R /\
    a = (23.7 * (IZR A - 2 * IZR Z) ^ 2 / IZR A)%R /\
    p = pairing_spec A Z /\
    c = (coulomb_coefficient K * IZR Z ^ 2 / Rpower (IZR A) (1 / 3))%R /\
    binding_energy_semf A Z =
      Ok (PFloat (15.75 * IZR A - s
                  - 0.711 * IZR Z ^ 2 / Rpower (IZR A) (1 / 3) - a + p)%R).
Proof.
  intros HA _ Hr HeV.
  exists (17.8 * Rpower (IZR A) (2 / 3))%R,
         (23.7 * (IZR A - 2 * IZR Z) ^ 2 / IZR A)%R,
         (pairing_spec A Z),
         (coulomb_coefficient K * IZR Z ^ 2 / Rpower (IZR A) (1 / 3))%R.
  split; [now apply surface_energy_pos |].
  split; [now apply asymmetry_energy_pos |].
  split; [rewrite pairing_energy_pos by assumption; now rewrite delta_real_spec |].
  split; [now apply coulomb_energy_pos |].
  do 4 (split; [reflexivity |]).
  rewrite binding_energy_semf_pos by assumption. now rewrite be_real_spec.
Qed.

Lemma reference_radius_nonzero : NUCLEAR_RADIUS_CONSTANT reference_constants <> 0%R.
Proof. simpl. lra. Qed.

Lemma reference_electron_volt_nonzero : ELECTRON_VOLT reference_constants <> 0%R.
Proof. simpl. lra. Qed.

Lemma decomposition_terms_witness :
  exists s a p c : R,
    surface_energy 4 = PFloat s /\
    asymmetry_energy 4 2 = Ok (PFloat a) /\
    pairing_energy 4 2 = Ok (PFloat p) /\
    coulomb_energy reference_constants 4 2 = Ok (PFloat c) /\
    s = (17.8 * Rpower (IZR 4) (2 / 3))%R /\
    a = (23.7 * (IZR 4 - 2 * IZR 2) ^ 2 / IZR 4)%R /\
    p = pairing_spec 4 2 /\
    c = (coulomb_coefficient reference_constants * IZR 2 ^ 2
         / Rpower (IZR 4) (1 / 3))%R /\
    binding_energy_semf 4 2 =
      Ok (PFloat (15.75 * IZR 4 - s
                  - 0.711 * IZR 2 ^ 2 / Rpower (IZR 4) (1 / 3) - a + p)%R).
Proof.
  apply (decomposition_terms reference_constants 4 2); [lia | lia | |].
  - simpl. lra.
  - simpl. lra.
Defined.

Lemma Rpower_one (e : R) : Rpower 1 e = 1%R.
Proof. unfold Rpower. now rewrite ln_1, Rmult_0_r, exp_0. Qed.

Lemma reference_coulomb_coefficient :
  (0.719 < coulomb_coefficient reference_constants < 0.721)%R.
Proof. unfold coulomb_coefficient. simpl. lra. Qed.

(** C1 fails as stated: for H-1 ([A = 1], [Z = 1]) [coulomb_energy] is more
    than 0.008 MeV above the Coulomb term of [binding_energy_semf], and so is
    the sum rebuilt from the decomposition functions, with or without the
    volume term. *)
Lemma coulomb_energy_disagrees :
  exists be s c a p : R,
    binding_energy_semf 1 1 = Ok (PFloat be) /\
    surface_energy 1 = PFloat s /\
    coulomb_energy reference_constants 1 1 = Ok (PFloat c) /\
    asymmetry_energy 1 1 = Ok (PFloat a) /\
    pairing_energy 1 1 = Ok (PFloat p) /\
    (0.008 < c - 0.711 * IZR 1 ^ 2 / Rpower (IZR 1) (1 / 3))%R /\
    (0.008 < be - (15.75 * IZR 1 - s - c - a + p))%R /\
    (0.008 < be - (- s - c - a + p))%R.
Proof.
  eexists _, _, _, _, _.
  split; [apply binding_energy_semf_pos; lia |].
  split; [apply surface_energy_pos; lia |].
  split; [apply coulomb_energy_pos;
          [lia | apply reference_radius_nonzero
           | apply reference_electron_volt_nonzero] |].
  split; [apply asymmetry_energy_pos; lia |].
  split; [apply pairing_energy_pos; lia |].
  rewrite be_real_spec, delta_real_spec. unfold semf_spec.
  pose proof reference_coulomb_coefficient as Hk.
  rewrite !Rpower_one. unfold pairing_spec. cbn [Z.even Z.odd Z.sub Z.pos_sub andb Z.opp].
  lra.
Qed.

(** ** Valley of stability *)

Lemma valley_of_stability_unfold (K : Constants) (A_range : int * int) :
  valley_of_stability K A_range =
  for_append (py_range (fst A_range) (snd A_range + 1)) (valley_inner K).
Proof. reflexivity. Qed.

Section InnerScan.
Variable K : Constants.
Variable A : int.
Hypothesis HA : 1 <= A.
Hypothesis HK : ATOMIC_MASS_UNIT_MEV K <> 0%R.

Lemma valley_step_first (best : int) (z : int) :
  valley_step K A (Inf, best) z = Ok (Fin (PFloat (mass_real K A z)), z).
Proof using HA HK.
  unfold valley_step. rewrite semi_empirical_mass_formula_pos by assumption.
  reflexivity.
Qed.

Lemma valley_step_next (b z : int) :
  valley_step K A (Fin (PFloat (mass_real K A b)), b) z =
  Ok (if bool_decide (mass_real K A z < mass_real K A b)%R
      then (Fin (PFloat (mass_real K A z)), z)
      else (Fin (PFloat (mass_real K A b)), b)).
Proof using HA HK.
  unfold valley_step. rewrite semi_empirical_mass_formula_pos by assumption.
  reflexivity.
Qed.

Lemma valley_scan (n : nat) :
  forall s b : int, b < s ->
  exists b',
    for_fold (seqZ s (Z.of_nat n)) (valley_step K A)
             (Fin (PFloat (mass_real K A b)), b)
      = Ok (Fin (PFloat (mass_real K A b')), b') /\
    (b' = b \/ s <= b' < s + Z.of_nat n) /\
    (mass_real K A b' <= mass_real K A b)%R /\
    (b' <> b -> (mass_real K A b' < mass_real K A b)%R) /\
    (forall z, s <= z < s + Z.of_nat n ->
       (mass_real K A b' <= mass_real K A z)%R /\
       (z < b' -> (mass_real K A b' < mass_real K A z)%R)).
Proof using HA HK.
  induction n as [| n IH]; intros s b Hb.
  - exists b. split; [reflexivity |]. split; [now left |].
    split; [lra |]. split; [congruence | intros; lia].
  - rewrite seqZ_cons by lia.
    replace (Z.pred (Z.of_nat (S n))) with (Z.of_nat n) by lia.
    cbn [for_fold]. rewrite valley_step_next. mstep.
    case_bool_decide as Hlt.
    + destruct (IH (Z.succ s) s) as (b' & Hrun & Hin & Hle & Hne & Hall); [lia |].
      exists b'. split; [exact Hrun |].
      split; [right; lia |]. split; [lra |]. split; [intros; lra |].
      intros z Hz. destruct (decide (z = s)) as [-> | Hzs].
      * split; [exact Hle |]. intros Hsb. apply Hne. lia.
      * apply Hall. lia.
    + destruct (IH (Z.succ s) b) as (b' & Hrun & Hin & Hle & Hne & Hall); [lia |].
      exists b'. split; [exact Hrun |].
      split; [destruct Hin; [now left | right; lia] |].
      split; [exact Hle |]. split; [exact Hne |].
      intros z Hz. destruct (decide (z = s)) as [-> | Hzs].
      * split; [lra |]. intros Hsb.
        assert (b' <> b) by lia. specialize (Hne H). lra.
      * apply Hall. lia.
Qed.

Lemma valley_inner_least : 2 <= A ->
  exists z, valley_inner K A = Ok z /\ least_minimiser K A z.
Proof using HA HK.
  intros H2. unfold valley_inner, py_range.
  rewrite seqZ_cons by lia. cbn [for_fold].
  rewrite valley_step_first. mstep.
  destruct (valley_scan (Z.to_nat (A - 2)) 2 1)
    as (b' & Hrun & Hin & Hle & Hne & Hall); [lia |].
  rewrite Z2Nat.id in Hrun, Hin, Hall by lia.
  replace (Z.pred (A - 1)) with (A - 2) by lia.
  change (Z.succ 1) with 2. rewrite Hrun. mstep. cbn [snd].
  exists b'. split; [reflexivity |]. split; [lia |].
  exists (mass_real K A b'). split; [now apply semi_empirical_mass_formula_pos |].
  intros z' Hz'. exists (mass_real K A z').
  split; [now apply semi_empirical_mass_formula_pos |].
  destruct (decide (z' = 1)) as [-> | Hz1].
  - split; [exact Hle |]. intros Hlt. apply Hne. lia.
  - apply Hall. lia.
Qed.
End InnerScan.

(** With nothing to scan the initial [best_Z = 1] is what gets appended. *)
Lemma valley_inner_empty (K : Constants) (A : int) :
  A <= 1 -> valley_inner K A = Ok 1.
Proof.
  intros HA. unfold valley_inner, py_range, seqZ.
  replace (Z.to_nat (A - 1)) with 0%nat by lia. reflexivity.
Qed.

Lemma for_append_Forall2 {T U : Type} (P : T -> U -> Prop) (xs : list T)
    (body : T -> result U) :
  (forall x, x ∈ xs -> exists v, body x = Ok v /\ P x v) ->
  exists l, for_append xs body = Ok l /\ Forall2 P xs l.
Proof.
  induction xs as [| x xs IH]; intros Hbody.
  - exists []. split; [reflexivity | constructor].
  - destruct (Hbody x) as (v & Hv & HP); [left |].
    destruct IH as (l & Hl & Hall); [intros y Hy; apply Hbody; now right |].
    exists (v :: l). cbn [for_append]. rewrite Hv, Hl.
    split; [reflexivity | now constructor].
Qed.

Lemma valley_inner_entry (K : Constants) (A : int) :
  ATOMIC_MASS_UNIT_MEV K <> 0%R ->
  exists z, valley_inner K A = Ok z /\ valley_entry K A z.
Proof.
  intros HK. destruct (Z_le_gt_dec A 1) as [Hle | Hgt].
  - exists 1. split; [now apply valley_inner_empty |].
    split; [intros; lia | reflexivity].
  - destruct (valley_inner_least K A) as (z & Hz & Hleast); [lia | done | lia |].
    exists z. split; [exact Hz |]. split; [intros _; exact Hleast | intros; lia].
Qed.

(** C6 (as amended): for [A_min <= A_max] the result has
    [A_max - A_min + 1] entries; the entry at index [A - A_min] is the least
    [Z] in [1 .. A-1] minimising [semi_empirical_mass_formula(A, Z)] when
    [A >= 2], and the initial value 1 when [A <= 1], where there is nothing
    to scan. *)
Theorem valley_of_stability_entries (K : Constants) (A_min A_max : int) :
  A_min <= A_max -> ATOMIC_MASS_UNIT_MEV K <> 0%R ->
  exists l : list int,
    valley_of_stability K (A_min, A_max) = Ok l /\
    Z.of_nat (length l) = A_max - A_min + 1 /\
    forall A, A_min <= A <= A_max ->
      exists z, l !! Z.to_nat (A - A_min) = Some z /\ valley_entry K A z.
Proof.
  intros Hrange HK. rewrite valley_of_stability_unfold. cbn [fst snd].
  destruct (for_append_Forall2 (valley_entry K)
              (py_range A_min (A_max + 1)) (valley_inner K))
    as (l & Hl & Hall).
  { intros A _. now apply valley_inner_entry. }
  exists l. split; [exact Hl |]. split.
  - rewrite <- (Forall2_length _ _ _ Hall). unfold py_range.
    rewrite length_seqZ. lia.
  - intros A HA.
    assert (Hlook : py_range A_min (A_max + 1) !! Z.to_nat (A - A_min) = Some A).
    { unfold py_range. rewrite lookup_seqZ. lia. }
    destruct (Forall2_lookup_l _ _ _ _ _ Hall Hlook) as (z & Hz & Hentry).
    eauto.
Qed.

Lemma valley_of_stability_entries_witness :
  exists l : list int,
    valley_of_stability reference_constants (2, 4) = Ok l /\
    Z.of_nat (length l) = 4 - 2 + 1 /\
    forall A, 2 <= A <= 4 ->
      exists z, l !! Z.to_nat (A - 2) = Some z /\
                valley_entry reference_constants A z.
Proof.
  apply (valley_of_stability_entries reference_constants 2 4); [lia |].
  simpl. lra.
Defined.

(** C6 fails as stated: for the range (1, 1) the single entry is 1, which
    is not in the empty set [1 .. 0]. *)
Lemma valley_of_stability_single_nucleon :
  valley_of_stability reference_constants (1, 1) = Ok [1] /\
  ~ least_minimiser reference_constants 1 1.
Proof.
  split.
  - rewrite valley_of_stability_unfold. cbn [fst snd]. unfold py_range.
    rewrite seqZ_cons by lia. rewrite seqZ_nil by lia.
    cbn [for_append]. rewrite valley_inner_empty by lia. reflexivity.
  - intros [Hin _]. lia.
Qed.

(** ** The nuclide table: copies are fresh objects *)






(** The same operations through the stored dict itself would show up in
    the table: the copy is what keeps it intact. *)
Lemma mutate_stored_is_visible :
  deref (Stored "He-4") (mutate (Stored "He-4") initial_store Clear) = Some ∅.
Proof. reflexivity. Qed.

(** ** The approximate proton number *)

Lemma all_from_spec (n : nat) (p : int -> bool) :
  forall A, all_from n A p = true ->
  forall x, A <= x < A + Z.of_nat n -> p x = true.
Proof.
  induction n as [| n IH]; intros A Hall x Hx; [lia |].
  cbn [all_from] in Hall. apply andb_prop in Hall as [HA Hrest].
  destruct (Z.eq_dec x A) as [-> | Hne]; [exact HA |].
  apply (IH (A + 1) Hrest). lia.
Qed.

Lemma approx_Z_checked : all_from 1001 0 approx_Z_as_expected = true.
Proof. vm_compute. reflexivity. Qed.

(** X1: for every mass number from 0 to 1000 [atomic_number_from_mass]
    returns the exact quotient ([A // 2], [10A // 21], [5A // 11] or
    [5A // 12]) except at [A] = 55, 66 and 99, where binary64 division
    falls just short of a whole number and the result is one less (24, 29,
    44); in every case [0 <= Z] and [2Z <= A]. *)
Theorem atomic_number_from_mass_bounds (A : int) :
  0 <= A <= 1000 ->
  exists z,
    atomic_number_from_mass A = Ok z /\
    z = exact_quotient_Z A
        - (if (A =? 55) || (A =? 66) || (A =? 99) then 1 else 0) /\
    0 <= z /\ 2 * z <= A.
Proof.
  intros HA.
  pose proof (all_from_spec 1001 approx_Z_as_expected 0 approx_Z_checked A) as Hc.
  unfold approx_Z_as_expected in Hc. rewrite Z.eqb_eq in Hc.
  exists (approx_Z A).
  split; [unfold atomic_number_from_mass, approx_Z;
          repeat destruct (_ <=? _); reflexivity |].
  split; [apply Hc; lia |].
  rewrite Hc by lia. unfold exact_quotient_Z.
  destruct (Z.eqb_spec A 55) as [-> | ?];
    [split; apply Z.leb_le; vm_compute; reflexivity |].
  destruct (Z.eqb_spec A 66) as [-> | ?];
    [split; apply Z.leb_le; vm_compute; reflexivity |].
  destruct (Z.eqb_spec A 99) as [-> | ?];
    [split; apply Z.leb_le; vm_compute; reflexivity |].
  cbn [orb].
  destruct (Z.leb_spec A 20); [| destruct (Z.leb_spec A 40);
    [| destruct (Z.leb_spec A 100)]];
    Z.to_euclidean_division_equations; lia.
Qed.

Lemma atomic_number_from_mass_bounds_witness :
  exists z,
    atomic_number_from_mass 55 = Ok z /\
    z = exact_quotient_Z 55
        - (if (55 =? 55) || (55 =? 66) || (55 =? 99) then 1 else 0) /\
    0 <= z /\ 2 * z <= 55.
Proof.
  apply (atomic_number_from_mass_bounds 55). lia.
Defined.

Lemma atomic_number_from_mass_approx (A : int) :
  atomic_number_from_mass A = Ok (approx_Z A).
Proof.
  unfold atomic_number_from_mass, approx_Z.
  repeat destruct (_ <=? _); reflexivity.
Qed.

Lemma binding_energy_value (K : Constants) (S : SIConstants) (A : int) (m : R) :
  ELECTRON_VOLT K <> 0%R ->
  binding_energy K S A m =
    Ok (PFloat ((IZR (approx_Z A) * PROTON_MASS S
                 + IZR (A - approx_Z A) * NEUTRON_MASS S
                 - m * ATOMIC_MASS_UNIT S)
                * (SPEED_OF_LIGHT S * SPEED_OF_LIGHT S)
                / ELECTRON_VOLT K / 1e6)%R).
Proof.
  intros HeV. unfold binding_energy.
  rewrite atomic_number_from_mass_approx. mstep.
  unfold of_int. cbn [py_mul py_add py_sub].
  rewrite truediv_float by assumption. mstep.
  rewrite truediv_float by lra. reflexivity.
Qed.

Lemma binding_energy_no_electron_volt (K : Constants) (S : SIConstants)
    (A : int) (m : R) :
  ELECTRON_VOLT K = 0%R -> binding_energy K S A m = Raise ZeroDivisionError.
Proof.
  intros HeV. unfold binding_energy.
  rewrite atomic_number_from_mass_approx. mstep.
  unfold of_int. cbn [py_mul py_add py_sub].
  rewrite HeV, truediv_float_zero. reflexivity.
Qed.

(** X2: with no nucleons there is nothing to divide by:
    [binding_energy_per_nucleon(0, m)] raises [ZeroDivisionError] for every
    measured mass and whatever the constants are. *)
Theorem binding_energy_per_nucleon_zero (K : Constants) (S : SIConstants) (m : R) :
  binding_energy_per_nucleon K S 0 m = Raise ZeroDivisionError.
Proof.
  unfold binding_energy_per_nucleon.
  destruct (decide (ELECTRON_VOLT K = 0%R)) as [HeV | HeV].
  - now rewrite binding_energy_no_electron_volt.
  - rewrite binding_energy_value by assumption. mstep.
    apply truediv_float_zero.
Qed.

(** X3: for a nonzero [ELECTRON_VOLT], [binding_energy] is affine in the
    measured mass: two masses for the same [A] give binding energies that
    differ by [(m2 - m1) * u * c^2 / eV / 1e6], whatever proton number the
    heuristic picks. *)
Theorem binding_energy_affine (K : Constants) (S : SIConstants) (A : int)
    (m1 m2 : R) :
  ELECTRON_VOLT K <> 0%R ->
  exists b1 b2 : R,
    binding_energy K S A m1 = Ok (PFloat b1) /\
    binding_energy K S A m2 = Ok (PFloat b2) /\
    (b1 - b2 = (m2 - m1) * ATOMIC_MASS_UNIT S
               * (SPEED_OF_LIGHT S * SPEED_OF_LIGHT S)
               / ELECTRON_VOLT K / 1e6)%R.
Proof.
  intros HeV. eexists _, _.
  split; [now apply binding_energy_value |].
  split; [now apply binding_energy_value |].
  field; lra.
Qed.

Lemma binding_energy_affine_witness :
  exists b1 b2 : R,
    binding_energy reference_constants reference_si_constants 55 54.938
      = Ok (PFloat b1) /\
    binding_energy reference_constants reference_si_constants 55 55
      = Ok (PFloat b2) /\
    (b1 - b2 = (55 - 54.938) * ATOMIC_MASS_UNIT reference_si_constants
               * (SPEED_OF_LIGHT reference_si_constants
                  * SPEED_OF_LIGHT reference_si_constants)
               / ELECTRON_VOLT reference_constants / 1e6)%R.
Proof.
  apply (binding_energy_affine reference_constants reference_si_constants
           55 54.938 55).
  simpl. lra.
Defined.

Lemma mass_defect_value (K : Constants) (A : int) (m : R) :
  ATOMIC_MASS_UNIT_MEV K <> 0%R ->
  mass_defect K A m =
    Ok (PFloat ((IZR (approx_Z A) * PROTON_MASS_MEV K
                 + IZR (A - approx_Z A) * NEUTRON_MASS_MEV K
                 - m * ATOMIC_MASS_UNIT_MEV K)
                / ATOMIC_MASS_UNIT_MEV K)%R).
Proof.
  intros HK. unfold mass_defect.
  rewrite atomic_number_from_mass_approx. mstep.
  unfold of_int. cbn [py_mul py_add py_sub].
  now apply truediv_float.
Qed.

(** X4: [binding_energy] works in SI units and [mass_defect] in MeV, each
    with its own constants.  When the two sets of constants say the same
    thing -- proton mass, neutron mass and atomic mass unit times
    [c^2 / eV / 1e6] are the MeV constants -- the binding energy is the mass
    defect converted to MeV: [binding_energy(A, m) = mass_defect(A, m) *
    ATOMIC_MASS_UNIT_MEV], both taking their proton number from
    [atomic_number_from_mass]. *)
Theorem binding_energy_is_mass_defect_in_mev (K : Constants) (S : SIConstants)
    (A : int) (m : R) :
  ELECTRON_VOLT K <> 0%R -> ATOMIC_MASS_UNIT_MEV K <> 0%R ->
  (PROTON_MASS S * (SPEED_OF_LIGHT S * SPEED_OF_LIGHT S)
   / ELECTRON_VOLT K / 1e6 = PROTON_MASS_MEV K)%R ->
  (NEUTRON_MASS S * (SPEED_OF_LIGHT S * SPEED_OF_LIGHT S)
   / ELECTRON_VOLT K / 1e6 = NEUTRON_MASS_MEV K)%R ->
  (ATOMIC_MASS_UNIT S * (SPEED_OF_LIGHT S * SPEED_OF_LIGHT S)
   / ELECTRON_VOLT K / 1e6 = ATOMIC_MASS_UNIT_MEV K)%R ->
  exists b d : R,
    binding_energy K S A m = Ok (PFloat b) /\
    mass_defect K A m = Ok (PFloat d) /\
    b = (d * ATOMIC_MASS_UNIT_MEV K)%R.
Proof.
  intros HeV HK Hp Hn Hu. eexists _, _.
  split; [now apply binding_energy_value |].
  split; [now apply mass_defect_value |].
  transitivity (IZR (approx_Z A) * PROTON_MASS_MEV K
                + IZR (A - approx_Z A) * NEUTRON_MASS_MEV K
                - m * ATOMIC_MASS_UNIT_MEV K)%R.
  - rewrite <- Hp, <- Hn, <- Hu. field. assumption.
  - field. assumption.
Qed.

Lemma binding_energy_is_mass_defect_in_mev_witness :
  exists b d : R,
    binding_energy reference_constants matching_si_constants 55 54.938
      = Ok (PFloat b) /\
    mass_defect reference_constants 55 54.938 = Ok (PFloat d) /\
    b = (d * ATOMIC_MASS_UNIT_MEV reference_constants)%R.
Proof.
  apply (binding_energy_is_mass_defect_in_mev reference_constants
           matching_si_constants 55 54.938); simpl; lra.
Defined.

(** ** Liquid-drop energy, mass excess and alpha decay *)

Lemma semi_empirical_mass_formula_no_amu (K : Constants) (A Z : int) :
  1 <= A -> ATOMIC_MASS_UNIT_MEV K = 0%R ->
  semi_empirical_mass_formula K A Z = Raise ZeroDivisionError.
Proof.
  intros HA HK. unfold semi_empirical_mass_formula.
  rewrite (math_sqrt_nonneg A) by lia. mstep.
  rewrite !truediv_float by (apply sqrt_IZR_nonzero; lia).
  rewrite !py_pow_pos by lia. unfold of_int, py_mul.
  rewrite !truediv_float by (apply Rpower_nonzero || (apply IZR_pos_nonzero; lia)).
  rewrite HK.
  destruct (_ && _); [mstep; cbn [py_add py_sub]; apply truediv_float_zero |].
  destruct (_ && _); mstep; cbn [py_add py_sub]; apply truediv_float_zero.
Qed.

Lemma liquid_drop_energy_pos (K : Constants) (A Z : int) :
  1 <= A ->
  liquid_drop_energy K A Z =
    Ok (PFloat (- be_real A Z + IZR Z * PROTON_MASS_MEV K
                + IZR (A - Z) * NEUTRON_MASS_MEV K)%R).
Proof.
  intros HA. unfold liquid_drop_energy.
  rewrite binding_energy_semf_pos by assumption. reflexivity.
Qed.

Lemma mass_excess_pos (K : Constants) (A Z : int) :
  1 <= A -> ATOMIC_MASS_UNIT_MEV K <> 0%R ->
  mass_excess K A Z =
    Ok (PFloat ((mass_real K A Z - IZR A) * ATOMIC_MASS_UNIT_MEV K)%R).
Proof.
  intros HA HK. unfold mass_excess.
  rewrite semi_empirical_mass_formula_pos by assumption. reflexivity.
Qed.

(** X5: on a positive mass number, with a nonzero [ATOMIC_MASS_UNIT_MEV],
    [liquid_drop_energy] is the predicted mass of
    [semi_empirical_mass_formula] converted to MeV, and [mass_excess] is
    that energy less [A * ATOMIC_MASS_UNIT_MEV]. *)
Theorem liquid_drop_energy_is_mass_energy (K : Constants) (A Z : int) :
  1 <= A -> ATOMIC_MASS_UNIT_MEV K <> 0%R ->
  exists e m x : R,
    liquid_drop_energy K A Z = Ok (PFloat e) /\
    semi_empirical_mass_formula K A Z = Ok (PFloat m) /\
    mass_excess K A Z = Ok (PFloat x) /\
    e = (m * ATOMIC_MASS_UNIT_MEV K)%R /\
    x = (e - IZR A * ATOMIC_MASS_UNIT_MEV K)%R.
Proof.
  intros HA HK. eexists _, _, _.
  split; [now apply liquid_drop_energy_pos |].
  split; [now apply semi_empirical_mass_formula_pos |].
  split; [now apply mass_excess_pos |].
  unfold mass_real. split; field; assumption.
Qed.

Lemma liquid_drop_energy_is_mass_energy_witness :
  exists e m x : R,
    liquid_drop_energy reference_constants 56 26 = Ok (PFloat e) /\
    semi_empirical_mass_formula reference_constants 56 26 = Ok (PFloat m) /\
    mass_excess reference_constants 56 26 = Ok (PFloat x) /\
    e = (m * ATOMIC_MASS_UNIT_MEV reference_constants)%R /\
    x = (e - IZR 56 * ATOMIC_MASS_UNIT_MEV reference_constants)%R.
Proof.
  apply (liquid_drop_energy_is_mass_energy reference_constants 56 26);
    [lia | simpl; lra].
Defined.

(** X6: the beta-minus Q-value is the difference of the mass excesses of
    parent and daughter. *)
Theorem q_value_beta_minus_mass_excess (K : Constants) (A Z : int) :
  1 <= A -> ATOMIC_MASS_UNIT_MEV K <> 0%R ->
  exists q x x' : R,
    q_value_beta_decay K A Z "beta-" = Ok (PFloat q) /\
    mass_excess K A Z = Ok (PFloat x) /\
    mass_excess K A (Z + 1) = Ok (PFloat x') /\
    q = (x - x')%R.
Proof.
  intros HA HK. eexists _, _, _.
  split; [now apply q_value_beta_minus_value |].
  split; [now apply mass_excess_pos |].
  split; [now apply mass_excess_pos |].
  ring.
Qed.

Lemma q_value_beta_minus_mass_excess_witness :
  exists q x x' : R,
    q_value_beta_decay reference_constants 14 6 "beta-" = Ok (PFloat q) /\
    mass_excess reference_constants 14 6 = Ok (PFloat x) /\
    mass_excess reference_constants 14 (6 + 1) = Ok (PFloat x') /\
    q = (x - x')%R.
Proof.
  apply (q_value_beta_minus_mass_excess reference_constants 14 6);
    [lia | simpl; lra].
Defined.

Lemma q_value_alpha_decay_pos (K : Constants) (A Z : int) :
  5 <= A -> ATOMIC_MASS_UNIT_MEV K <> 0%R ->
  q_value_alpha_decay K A Z =
    Ok (PFloat ((mass_real K A Z - mass_real K (A - 4) (Z - 2) - 4.002603)
                * ATOMIC_MASS_UNIT_MEV K)%R).
Proof.
  intros HA HK. unfold q_value_alpha_decay.
  rewrite !semi_empirical_mass_formula_pos by (assumption || lia). reflexivity.
Qed.

(** X7: for a parent with [A >= 5] the alpha-decay Q-value is the mass
    excess of the parent, less that of the daughter, less the mass excess
    [(4.002603 - 4) * ATOMIC_MASS_UNIT_MEV] of the alpha particle. *)
Theorem q_value_alpha_mass_excess (K : Constants) (A Z : int) :
  5 <= A -> ATOMIC_MASS_UNIT_MEV K <> 0%R ->
  exists q x x' : R,
    q_value_alpha_decay K A Z = Ok (PFloat q) /\
    mass_excess K A Z = Ok (PFloat x) /\
    mass_excess K (A - 4) (Z - 2) = Ok (PFloat x') /\
    q = (x - x' - (4.002603 - 4) * ATOMIC_MASS_UNIT_MEV K)%R.
Proof.
  intros HA HK. eexists _, _, _.
  split; [now apply q_value_alpha_decay_pos |].
  split; [apply mass_excess_pos; [lia | assumption] |].
  split; [apply mass_excess_pos; [lia | assumption] |].
  rewrite minus_IZR. ring.
Qed.

Lemma q_value_alpha_mass_excess_witness :
  exists q x x' : R,
    q_value_alpha_decay reference_constants 238 92 = Ok (PFloat q) /\
    mass_excess reference_constants 238 92 = Ok (PFloat x) /\
    mass_excess reference_constants (238 - 4) (92 - 2) = Ok (PFloat x') /\
    q = (x - x' - (4.002603 - 4) * ATOMIC_MASS_UNIT_MEV reference_constants)%R.
Proof.
  apply (q_value_alpha_mass_excess reference_constants 238 92);
    [lia | simpl; lra].
Defined.

(** X8: an alpha decay from [A = 4] leaves a daughter of mass number 0:
    [q_value_alpha_decay(4, Z)] raises [ZeroDivisionError] for every [Z] and
    whatever the constants are. *)
Theorem q_value_alpha_decay_from_four (K : Constants) (Z : int) :
  q_value_alpha_decay K 4 Z = Raise ZeroDivisionError.
Proof.
  unfold q_value_alpha_decay.
  destruct (decide (ATOMIC_MASS_UNIT_MEV K = 0%R)) as [HK | HK].
  - rewrite (semi_empirical_mass_formula_no_amu K 4 Z) by (assumption || lia).
    reflexivity.
  - rewrite (semi_empirical_mass_formula_pos K 4 Z) by (assumption || lia).
    mstep. change (4 - 4) with 0.
    rewrite semi_empirical_mass_formula_zero. reflexivity.
Qed.

(** ** Daughters without nucleons *)

(** X9: a separation that leaves a daughter of mass number 0 raises
    [ZeroDivisionError], for every [Z]: one neutron or proton from [A = 1],
    two neutrons from [A = 2], an alpha from [A = 4]. *)
Theorem separation_energy_empty_daughter (Z : int) :
  separation_energy 1 Z "neutron" = Raise ZeroDivisionError /\
  separation_energy 1 Z "proton" = Raise ZeroDivisionError /\
  two_neutron_separation_energy 2 Z = Raise ZeroDivisionError /\
  separation_energy 4 Z "alpha" = Raise ZeroDivisionError.
Proof.
  assert (Hd : forall A Z', 1 <= A ->
            be_difference A Z 0 Z' = Raise ZeroDivisionError).
  { intros A Z' HA. unfold be_difference.
    rewrite (binding_energy_semf_pos A Z) by assumption. mstep.
    now rewrite binding_energy_semf_zero. }
  split; [rewrite separation_energy_neutron; apply Hd; lia |].
  split; [rewrite separation_energy_proton; apply Hd; lia |].
  split; [apply (Hd 2 Z); lia |].
  rewrite separation_energy_alpha. change (4 - 4) with 0.
  rewrite Hd by lia. reflexivity.
Qed.

(** X10: below [A = 4] the alpha separation energy has a daughter of
    negative mass number: from [A = 2] [math.sqrt] raises [ValueError], from
    [A = 1] and [A = 3] nothing is raised and the result is complex. *)
Theorem separation_energy_alpha_light (Z : int) :
  separation_energy 2 Z "alpha" = Raise (ValueError "math domain error") /\
  (exists v, separation_energy 1 Z "alpha" = Ok v /\ is_complex v) /\
  (exists v, separation_energy 3 Z "alpha" = Ok v /\ is_complex v).
Proof.
  rewrite !separation_energy_alpha. unfold be_difference.
  rewrite (binding_energy_semf_pos 2 Z), (binding_energy_semf_pos 1 Z),
    (binding_energy_semf_pos 3 Z) by lia.
  mstep. split; [| split].
  - rewrite binding_energy_semf_neg_even by (lia || reflexivity). reflexivity.
  - destruct (binding_energy_semf_neg_odd (1 - 4) (Z - 2)) as (re & im & ->);
      [lia | reflexivity |].
    eexists. split; [reflexivity | exact I].
  - destruct (binding_energy_semf_neg_odd (3 - 4) (Z - 2)) as (re & im & ->);
      [lia | reflexivity |].
    eexists. split; [reflexivity | exact I].
Qed.

(** ** Mirror nuclei: exchanging protons and neutrons *)

Lemma mirror_involutive (A Z : int) : A - (A - Z) = Z.
Proof. lia. Qed.

(** X11: [is_magic_nucleus] does not tell protons from neutrons: a nucleus
    and its mirror ([Z] and [N] exchanged) get the same answer. *)
Theorem is_magic_nucleus_mirror (A Z : int) :
  is_magic_nucleus A (A - Z) = is_magic_nucleus A Z.
Proof.
  unfold is_magic_nucleus. cbv zeta. rewrite mirror_involutive.
  apply orb_comm.
Qed.

Lemma delta_real_mirror (A Z : int) : delta_real A (A - Z) = delta_real A Z.
Proof.
  unfold delta_real. rewrite mirror_involutive.
  rewrite (andb_comm ((A - Z) mod 2 =? 0)), (andb_comm ((A - Z) mod 2 =? 1)).
  reflexivity.
Qed.

(** X12: [pairing_energy] is the same for a nucleus and its mirror, on every
    input, the failing ones included. *)
Theorem pairing_energy_mirror (A Z : int) :
  pairing_energy A (A - Z) = pairing_energy A Z.
Proof.
  unfold pairing_energy. cbv zeta. rewrite mirror_involutive.
  rewrite (andb_comm ((A - Z) mod 2 =? 0)), (andb_comm ((A - Z) mod 2 =? 1)).
  reflexivity.
Qed.

(** X13: on a positive mass number the pairing energy is zero exactly for
    odd [A]; for even [A] it is positive when [Z] is even and negative when
    [Z] is odd. *)
Theorem pairing_energy_sign (A Z : int) :
  1 <= A ->
  exists v : R,
    pairing_energy A Z = Ok (PFloat v) /\
    (A mod 2 = 1 -> v = 0%R) /\
    (A mod 2 = 0 -> Z mod 2 = 0 -> (0 < v)%R) /\
    (A mod 2 = 0 -> Z mod 2 = 1 -> (v < 0)%R).
Proof.
  intros HA. exists (delta_real A Z).
  split; [now apply pairing_energy_pos |].
  assert (Hs : (0 < sqrt (IZR A))%R) by (apply sqrt_lt_R0, IZR_lt; lia).
  assert (Hp : (0 < 11.18 / sqrt (IZR A))%R) by (apply Rdiv_lt_0_compat; lra).
  assert (Hn : (-11.18 / sqrt (IZR A) < 0)%R).
  { pose proof (Rinv_0_lt_compat _ Hs). unfold Rdiv. nra. }
  unfold delta_real. split; [| split].
  - intros Hodd. destruct (parity_mixed A Z Hodd) as [-> ->]. reflexivity.
  - intros Hev HZ. destruct (parity_same A Z Hev) as [-> | [H1 _]]; [exact Hp |].
    exfalso. rewrite HZ in H1. cbn in H1.
    destruct (Z.eqb_spec ((A - Z) mod 2) 0) as [| Hne]; [discriminate |].
    apply Hne. Z.to_euclidean_division_equations; lia.
  - intros Hev HZ. destruct (parity_same A Z Hev) as [H1 | [-> ->]]; [| exact Hn].
    exfalso. rewrite HZ in H1. discriminate H1.
Qed.

Lemma pairing_energy_sign_witness :
  exists v : R, pairing_energy 4 2 = Ok (PFloat v) /\ (0 < v)%R.
Proof.
  destruct (pairing_energy_sign 4 2) as (v & Hv & _ & Hpos & _); [lia |].
  exists v. split; [exact Hv |]. apply Hpos; reflexivity.
Defined.

(** X14: mirror nuclei differ in binding energy by their Coulomb terms
    only: [BE(A, A-Z) - BE(A, Z) = 0.711 * (Z^2 - (A-Z)^2) / A^(1/3)]. *)
Theorem binding_energy_semf_mirror (A Z : int) :
  1 <= A ->
  exists b b' : R,
    binding_energy_semf A Z = Ok (PFloat b) /\
    binding_energy_semf A (A - Z) = Ok (PFloat b') /\
    (b' - b = 0.711 * (IZR Z ^ 2 - IZR (A - Z) ^ 2) / Rpower (IZR A) (1 / 3))%R.
Proof.
  intros HA. exists (be_real A Z), (be_real A (A - Z)).
  split; [now apply binding_energy_semf_pos |].
  split; [now apply binding_energy_semf_pos |].
  unfold be_real. rewrite delta_real_mirror.
  replace ((A - 2 * (A - Z)) ^ 2) with ((A - 2 * Z) ^ 2) by ring.
  rewrite !pow_IZR. change (Z.of_nat 2) with 2.
  pose proof (Rpower_nonzero (IZR A) (1 / 3)).
  pose proof (IZR_pos_nonzero A HA).
  field. split; assumption.
Qed.

Lemma binding_energy_semf_mirror_witness :
  exists b b' : R,
    binding_energy_semf 3 1 = Ok (PFloat b) /\
    binding_energy_semf 3 (3 - 1) = Ok (PFloat b') /\
    (b' - b = 0.711 * (IZR 1 ^ 2 - IZR (3 - 1) ^ 2) / Rpower (IZR 3) (1 / 3))%R.
Proof.
  apply (binding_energy_semf_mirror 3 1). lia.
Defined.

(** ** The decomposition functions at their edges *)

(** X15: on a positive mass number [asymmetry_energy] is never negative,
    and it is zero exactly when [A = 2Z]. *)
Theorem asymmetry_energy_nonneg (A Z : int) :
  1 <= A ->
  exists a : R,
    asymmetry_energy A Z = Ok (PFloat a) /\
    (0 <= a)%R /\
    (a = 0%R <-> A = 2 * Z).
Proof.
  intros HA. eexists. split; [now apply asymmetry_energy_pos |].
  assert (HA' : (0 < IZR A)%R) by (apply IZR_lt; lia).
  set (d := (IZR A - 2 * IZR Z)%R).
  assert (Hsq : (0 <= d ^ 2)%R) by (apply pow2_ge_0).
  split.
  - apply Rmult_le_pos; [nra | apply Rlt_le, Rinv_0_lt_compat, HA'].
  - split.
    + intros H0.
      assert (Hd : (d ^ 2 = 0)%R).
      { apply Rmult_integral in H0 as [H0 | H0];
          [nra | pose proof (Rinv_0_lt_compat _ HA'); lra]. }
      assert (d = 0%R) by nra.
      apply eq_IZR. rewrite mult_IZR. subst d. lra.
    + intros ->. subst d. rewrite mult_IZR.
      replace (2 * IZR Z - 2 * IZR Z)%R with 0%R by ring.
      unfold Rdiv. ring.
Qed.

Lemma asymmetry_energy_nonneg_witness :
  exists a : R, asymmetry_energy 4 2 = Ok (PFloat a) /\ a = 0%R.
Proof.
  destruct (asymmetry_energy_nonneg 4 2) as (a & Ha & _ & Hiff); [lia |].
  exists a. split; [exact Ha |]. apply Hiff. reflexivity.
Defined.

(** X16: at mass number 0 the surface energy is [0.0], while the Coulomb,
    asymmetry and pairing energies raise [ZeroDivisionError], for every [Z]
    and whatever the constants are. *)
Theorem decomposition_at_zero (K : Constants) (Z : int) :
  surface_energy 0 = PFloat 0 /\
  coulomb_energy K 0 Z = Raise ZeroDivisionError /\
  asymmetry_energy 0 Z = Raise ZeroDivisionError /\
  pairing_energy 0 Z = Raise ZeroDivisionError.
Proof.
  split; [| split; [| split]].
  - unfold surface_energy, py_pow. cbn [Z.ltb Z.eqb Z.compare py_mul].
    f_equal. lra.
  - unfold coulomb_energy, nuclear_radius, py_pow, of_int.
    cbn [Z.ltb Z.eqb Z.compare py_mul].
    rewrite (truediv_float 3 5) by lra. mstep. cbn [py_mul].
    replace (NUCLEAR_RADIUS_CONSTANT K * 0 * 1e-15)%R with 0%R by lra.
    now rewrite truediv_float_zero.
  - unfold asymmetry_energy, of_int. cbn [py_mul]. apply truediv_float_zero.
  - unfold pairing_energy. cbv zeta. rewrite math_sqrt_zero. mstep.
    rewrite !truediv_float_zero.
    destruct (parity_same 0 Z) as [-> | [-> ->]]; reflexivity.
Qed.

(** ** Radius and density *)

Lemma Rpower_cube_root (x : R) :
  (0 < x)%R -> (Rpower x (1 / 3) ^ 3 = x)%R.
Proof.
  intros Hx. cbn [pow]. rewrite Rmult_1_r, <- !Rpower_plus.
  replace (1 / 3 + (1 / 3 + 1 / 3))%R with 1%R by lra.
  now apply Rpower_1.
Qed.

Lemma nuclear_radius_pos (K : Constants) (A : int) :
  1 <= A ->
  nuclear_radius K A = PFloat (NUCLEAR_RADIUS_CONSTANT K * Rpower (IZR A) (1 / 3)).
Proof. intros HA. unfold nuclear_radius. now rewrite py_pow_pos by lia. Qed.

Lemma nuclear_density_value (K : Constants) (S : SIConstants) :
  NUCLEAR_RADIUS_CONSTANT K <> 0%R ->
  nuclear_density K S =
    Ok (PFloat (ATOMIC_MASS_UNIT S
                / (4 / 3 * PI * (NUCLEAR_RADIUS_CONSTANT K * 1e-15
                                 * (NUCLEAR_RADIUS_CONSTANT K * 1e-15)
                                 * (NUCLEAR_RADIUS_CONSTANT K * 1e-15))))%R).
Proof.
  intros Hr. unfold nuclear_density, of_int.
  rewrite (truediv_float 4 3) by lra. mstep. cbn [py_mul].
  apply truediv_float.
  pose proof PI_RGT_0.
  assert (Hm : (NUCLEAR_RADIUS_CONSTANT K * 1e-15 <> 0)%R)
    by (intros H0; apply Hr; lra).
  apply Rmult_integral_contrapositive_currified; [nra |].
  apply Rmult_integral_contrapositive_currified; [| exact Hm].
  apply Rmult_integral_contrapositive_currified; exact Hm.
Qed.

(** X17: the radius grows as the cube root of [A], so every nucleus has the
    density [nuclear_density()]: for [A >= 1] and a nonzero radius constant,
    [nuclear_radius(A)^3 = r0^3 * A], and [A] atomic mass units spread over
    a sphere of that radius (in metres) give exactly [nuclear_density()]. *)
Theorem nuclear_density_of_every_nucleus (K : Constants) (S : SIConstants)
    (A : int) :
  1 <= A -> NUCLEAR_RADIUS_CONSTANT K <> 0%R ->
  exists r rho : R,
    nuclear_radius K A = PFloat r /\
    nuclear_density K S = Ok (PFloat rho) /\
    (r ^ 3 = NUCLEAR_RADIUS_CONSTANT K ^ 3 * IZR A)%R /\
    (IZR A * ATOMIC_MASS_UNIT S / (4 / 3 * PI * (r * 1e-15) ^ 3) = rho)%R.
Proof.
  intros HA Hr. eexists _, _.
  split; [now apply nuclear_radius_pos |].
  split; [now apply nuclear_density_value |].
  assert (HA' : (0 < IZR A)%R) by (apply IZR_lt; lia).
  pose proof (Rpower_cube_root (IZR A) HA') as Hcube.
  set (c := Rpower (IZR A) (1 / 3)) in *.
  assert (Hc : c <> 0%R) by apply Rpower_nonzero.
  pose proof PI_RGT_0.
  split.
  - rewrite Rpow_mult_distr, Hcube. reflexivity.
  - replace ((NUCLEAR_RADIUS_CONSTANT K * c * 1e-15) ^ 3)%R
      with ((NUCLEAR_RADIUS_CONSTANT K * 1e-15) ^ 3 * c ^ 3)%R by ring.
    rewrite Hcube. field. repeat split; lra.
Qed.

Lemma nuclear_density_of_every_nucleus_witness :
  exists r rho : R,
    nuclear_radius reference_constants 56 = PFloat r /\
    nuclear_density reference_constants
      reference_si_constants
      = Ok (PFloat rho) /\
    (r ^ 3 = NUCLEAR_RADIUS_CONSTANT reference_constants ^ 3 * IZR 56)%R /\
    (IZR 56 * ATOMIC_MASS_UNIT reference_si_constants
     / (4 / 3 * PI * (r * 1e-15) ^ 3) = rho)%R.
Proof.
  apply (nuclear_density_of_every_nucleus reference_constants
           reference_si_constants 56);
    [lia | simpl; lra].
Defined.

(** X18: with a positive radius constant [nuclear_radius] is strictly
    increasing on positive mass numbers, and it is [0.0] at [A = 0]; with a
    zero radius constant [nuclear_density] raises [ZeroDivisionError]. *)
Theorem nuclear_radius_increasing (K : Constants) (S : SIConstants) (A B : int) :
  (1 <= A < B -> (0 < NUCLEAR_RADIUS_CONSTANT K)%R ->
   exists r r' : R,
     nuclear_radius K A = PFloat r /\ nuclear_radius K B = PFloat r' /\
     (0 < r < r')%R) /\
  (exists r0 : R, nuclear_radius K 0 = PFloat r0 /\ r0 = 0%R) /\
  (NUCLEAR_RADIUS_CONSTANT K = 0%R ->
   nuclear_density K S = Raise ZeroDivisionError).
Proof.
  split; [| split].
  - intros HAB Hr. eexists _, _.
    split; [apply nuclear_radius_pos; lia |].
    split; [apply nuclear_radius_pos; lia |].
    assert (HA : (0 < IZR A)%R) by (apply IZR_lt; lia).
    assert (HAB' : (IZR A < IZR B)%R) by (apply IZR_lt; lia).
    assert (Hlt : (Rpower (IZR A) (1 / 3) < Rpower (IZR B) (1 / 3))%R)
      by (apply Rlt_Rpower_l; lra).
    assert (Hpos : (0 < Rpower (IZR A) (1 / 3))%R) by apply exp_pos.
    split; nra.
  - eexists. split.
    + unfold nuclear_radius, py_pow. cbn [Z.ltb Z.eqb Z.compare py_mul].
      reflexivity.
    + lra.
  - intros Hr. unfold nuclear_density, of_int.
    rewrite (truediv_float 4 3) by lra. mstep. cbn [py_mul].
    rewrite Hr.
    replace (4 / 3 * PI * (0 * 1e-15 * (0 * 1e-15) * (0 * 1e-15)))%R
      with 0%R by ring.
    apply truediv_float_zero.
Qed.

Lemma nuclear_radius_increasing_witness :
  exists r r' : R,
    nuclear_radius reference_constants 4 = PFloat r /\
    nuclear_radius reference_constants 238 = PFloat r' /\
    (0 < r < r')%R.
Proof.
  apply (nuclear_radius_increasing reference_constants
           reference_si_constants 4 238);
    [lia | simpl; lra].
Defined.

(** ** The nuclide table: misses and earlier copies *)

(** X19: a name that is not a key raises [ValueError] with a message that
    repeats the name and lists the thirteen keys in table order, and nothing
    is allocated. *)
Theorem get_nuclear_data_unknown (name : string) :
  dict_get name NUCLEAR_DATA = None ->
  get_nuclear_data name initial_store =
    (Raise (ValueError
       ("Nucleus " ++ name ++
        " not found. Available: H-1, H-2, H-3, He-3, He-4, Li-6, Li-7, " ++
        "C-12, N-14, O-16, Fe-56, U-235, U-238")),
     initial_store).
Proof.
  intros Hmiss. unfold get_nuclear_data. cbn [repo initial_store].
  rewrite Hmiss. reflexivity.
Qed.

Lemma get_nuclear_data_unknown_witness :
  get_nuclear_data "Pb-208" initial_store =
    (Raise (ValueError
       ("Nucleus " ++ "Pb-208" ++
        " not found. Available: H-1, H-2, H-3, He-3, He-4, Li-6, Li-7, " ++
        "C-12, N-14, O-16, Fe-56, U-235, U-238")),
     initial_store).
Proof.
  apply (get_nuclear_data_unknown "Pb-208"). reflexivity.
Defined.

(** X20: in any store a call leaves the table and every dict handed out
    before as they were, whether it succeeds or not; it succeeds exactly
    when the name is a key, and then the new dict is the next object. *)
Theorem get_nuclear_data_frame (name : string) (st : store) :
  repo (snd (get_nuclear_data name st)) = repo st /\
  (forall i d, copies st !! i = Some d ->
               copies (snd (get_nuclear_data name st)) !! i = Some d) /\
  ((exists r, fst (get_nuclear_data name st) = Ok r) <->
   (exists d, dict_get name (repo st) = Some d)) /\
  (forall r, fst (get_nuclear_data name st) = Ok r ->
             r = Copy (length (copies st)) /\
             deref r (snd (get_nuclear_data name st)) = dict_get name (repo st)).
Proof.
  unfold get_nuclear_data.
  destruct (dict_get name (repo st)) as [d |] eqn:Hd; cbn [fst snd repo copies].
  - split; [reflexivity |].
    split; [intros i d' Hi; now apply lookup_app_l_Some |].
    split; [split; eauto |].
    intros r [= <-]. split; [reflexivity |].
    cbn [deref copies]. now apply list_lookup_middle.
  - split; [reflexivity |]. split; [auto |].
    split; [split; intros [x Hx]; discriminate |].
    intros r Hr. discriminate.
Qed.

(** ** Ranges the searches do not enter *)

(** X21: what a drip-line search can return.  For [Z >= 300] nothing is
    scanned and the result is the sentinel 300; for [2 <= Z] the result is
    300 or lies between [Z - 1] and 298 -- 299 is never returned. *)
Theorem drip_line_result_range (Z : int) :
  (300 <= Z -> neutron_drip_line Z = Ok 300 /\ proton_drip_line Z = Ok 300) /\
  (2 <= Z ->
   exists rn rp,
     neutron_drip_line Z = Ok rn /\ proton_drip_line Z = Ok rp /\
     (rn = 300 \/ Z - 1 <= rn <= 298) /\
     (rp = 300 \/ Z - 1 <= rp <= 298)).
Proof.
  split.
  - intros HZ. unfold neutron_drip_line, proton_drip_line, py_range.
    rewrite !seqZ_nil by lia. split; reflexivity.
  - intros HZ.
    destruct (neutron_drip_line_scan Z HZ) as (rn & Hn & Hsn).
    destruct (proton_drip_line_scan Z HZ) as (rp & Hp & Hsp).
    exists rn, rp. split; [exact Hn |]. split; [exact Hp |].
    split.
    + destruct Hsn as [(A' & HA' & _ & _ & ->) | [_ ->]]; [right; lia | now left].
    + destruct Hsp as [(A' & HA' & _ & _ & ->) | [_ ->]]; [right; lia | now left].
Qed.

Lemma drip_line_result_range_witness :
  (neutron_drip_line 300 = Ok 300 /\ proton_drip_line 300 = Ok 300) /\
  (exists rn rp,
     neutron_drip_line 8 = Ok rn /\ proton_drip_line 8 = Ok rp /\
     (rn = 300 \/ 8 - 1 <= rn <= 298) /\
     (rp = 300 \/ 8 - 1 <= rp <= 298)).
Proof.
  split.
  - apply (drip_line_result_range 300). lia.
  - apply (drip_line_result_range 8). lia.
Defined.

Lemma for_append_const {T U : Type} (xs : list T) (body : T -> result U) (v : U) :
  (forall x, x ∈ xs -> body x = Ok v) ->
  for_append xs body = Ok (replicate (length xs) v).
Proof.
  induction xs as [| x xs IH]; intros Hbody; [reflexivity |].
  cbn [for_append length replicate].
  rewrite Hbody by left. rewrite IH by (intros y Hy; apply Hbody; now right).
  reflexivity.
Qed.

(** X22: a range that ends at [A_max <= 1] never consults the mass formula
    or the constants: every entry is the initial [best_Z = 1], and a range
    with [A_max < A_min] gives the empty list. *)
Theorem valley_of_stability_nothing_to_scan (K : Constants) (A_min A_max : int) :
  A_max <= 1 ->
  valley_of_stability K (A_min, A_max) =
    Ok (replicate (Z.to_nat (A_max - A_min + 1)) 1) /\
  (A_max < A_min -> valley_of_stability K (A_min, A_max) = Ok []).
Proof.
  intros Hmax.
  assert (Hall : valley_of_stability K (A_min, A_max) =
                 Ok (replicate (Z.to_nat (A_max - A_min + 1)) 1)).
  { rewrite valley_of_stability_unfold. cbn [fst snd].
    rewrite (for_append_const _ _ 1).
    - unfold py_range. rewrite length_seqZ. do 3 f_equal. lia.
    - intros A HA. apply valley_inner_empty.
      unfold py_range in HA. apply elem_of_seqZ in HA. lia. }
  split; [exact Hall |].
  intros Hrev. rewrite Hall.
  replace (Z.to_nat (A_max - A_min + 1)) with 0%nat by lia. reflexivity.
Qed.

Lemma valley_of_stability_nothing_to_scan_witness :
  valley_of_stability reference_constants (-1, 1) = Ok [1; 1; 1].
Proof.
  apply (valley_of_stability_nothing_to_scan reference_constants (-1) 1). lia.
Defined.

(** ** The two copies of the SEMF sum *)

(** X23: [semi_empirical_mass_formula] repeats the body of
    [binding_energy_semf]; on every input, valid or not, it behaves as
    calling [binding_energy_semf] and converting the result would. *)
Theorem semi_empirical_mass_formula_via_binding_energy (K : Constants) (A Z : int) :
  semi_empirical_mass_formula K A Z =
  (BE ← binding_energy_semf A Z;
   py_truediv
     (py_sub (py_add (py_mul (of_int Z) (PFloat (PROTON_MASS_MEV K)))
                     (py_mul (of_int (A - Z)) (PFloat (NEUTRON_MASS_MEV K))))
             BE)
     (PFloat (ATOMIC_MASS_UNIT_MEV K))).
Proof.
  unfold semi_empirical_mass_formula, binding_energy_semf. cbv zeta.
  destruct (if (Z mod 2 =? 0) && ((A - Z) mod 2 =? 0)
            then s ← math_sqrt A; py_truediv (PFloat 11.18) s
            else if (Z mod 2 =? 1) && ((A - Z) mod 2 =? 1)
                 then s ← math_sqrt A; py_truediv (PFloat (-11.18)) s
                 else Ok (of_int 0)) as [delta | e]; [| reflexivity].
  mstep.
  destruct (py_truediv (py_mul (PFloat 0.711) (of_int (Z ^ 2)))
                       (py_pow A (1 / 3))) as [coulomb | e]; [| reflexivity].
  mstep.
  destruct (py_truediv (py_mul (PFloat 23.7) (of_int ((A - 2 * Z) ^ 2)))
                       (of_int A)) as [asym | e]; reflexivity.
Qed.

(** ** How the searches and separations compose *)

Lemma for_append_app {T U : Type} (xs ys : list T) (body : T -> result U)
    (l1 l2 : list U) :
  for_append xs body = Ok l1 -> for_append ys body = Ok l2 ->
  for_append (xs ++ ys) body = Ok (l1 ++ l2).
Proof.
  revert l1. induction xs as [| x xs IH]; intros l1 H1 H2.
  - injection H1 as <-. exact H2.
  - cbn [for_append app] in *. destruct (body x) as [v | e]; [| discriminate].
    mstep. rewrite bind_Ok in H1.
    destruct (for_append xs body) as [vs | e]; [| discriminate].
    injection H1 as <-. rewrite (IH vs eq_refl H2). reflexivity.
Qed.

Lemma valley_of_stability_total (K : Constants) (A_min A_max : int) :
  ATOMIC_MASS_UNIT_MEV K <> 0%R ->
  exists l, valley_of_stability K (A_min, A_max) = Ok l.
Proof.
  intros HK. rewrite valley_of_stability_unfold.
  destruct (for_append_Forall2 (valley_entry K)
              (py_range (fst (A_min, A_max)) (snd (A_min, A_max) + 1))
              (valley_inner K)) as (l & Hl & _); [| eauto].
  intros A _. now apply valley_inner_entry.
Qed.

(** X24: each entry depends on its own [A] only, so cutting a range in two
    cuts the result in two: for [A_min <= B + 1 <= A_max + 1] the result for
    [(A_min, A_max)] is the result for [(A_min, B)] followed by the result
    for [(B + 1, A_max)]. *)
Theorem valley_of_stability_split (K : Constants) (A_min B A_max : int) :
  ATOMIC_MASS_UNIT_MEV K <> 0%R -> A_min <= B + 1 -> B <= A_max ->
  exists l1 l2,
    valley_of_stability K (A_min, B) = Ok l1 /\
    valley_of_stability K (B + 1, A_max) = Ok l2 /\
    valley_of_stability K (A_min, A_max) = Ok (l1 ++ l2).
Proof.
  intros HK Hlo Hhi.
  destruct (valley_of_stability_total K A_min B HK) as [l1 H1].
  destruct (valley_of_stability_total K (B + 1) A_max HK) as [l2 H2].
  exists l1, l2. split; [exact H1 |]. split; [exact H2 |].
  rewrite valley_of_stability_unfold in *. cbn [fst snd] in *.
  unfold py_range in *.
  replace (A_max + 1 - A_min) with ((B + 1 - A_min) + (A_max + 1 - (B + 1)))
    by lia.
  rewrite seqZ_app by lia.
  replace (A_min + (B + 1 - A_min)) with (B + 1) by lia.
  now apply for_append_app.
Qed.

Lemma valley_of_stability_split_witness :
  exists l1 l2,
    valley_of_stability reference_constants (2, 4) = Ok l1 /\
    valley_of_stability reference_constants (4 + 1, 9) = Ok l2 /\
    valley_of_stability reference_constants (2, 9) = Ok (l1 ++ l2).
Proof.
  apply (valley_of_stability_split reference_constants 2 4 9);
    [simpl; lra | lia | lia].
Defined.

Lemma drip_line_first_raises (particle : string) (Z : int) (e : pyexn) :
  Z < 300 ->
  separation_energy Z Z particle = Raise e ->
  for_return (py_range Z 300) (drip_body particle Z) (Ok 300) = Raise e.
Proof.
  intros HZ Hsep. unfold py_range. rewrite seqZ_cons by lia.
  cbn [for_return]. unfold drip_body. rewrite Hsep. reflexivity.
Qed.

(** X25: below [Z = 1] the drip-line searches never return either: at
    [Z = 0] both raise [ZeroDivisionError], and for every [Z < 0] both raise
    [ValueError] ("math domain error"), in the first scan step. *)
Theorem drip_line_nonpositive_Z (Z : int) :
  (Z = 0 ->
   neutron_drip_line Z = Raise ZeroDivisionError /\
   proton_drip_line Z = Raise ZeroDivisionError) /\
  (Z < 0 ->
   neutron_drip_line Z = Raise (ValueError "math domain error") /\
   proton_drip_line Z = Raise (ValueError "math domain error")).
Proof.
  split.
  - intros ->. split.
    + apply (drip_line_first_raises "neutron" 0); [lia |].
      rewrite separation_energy_neutron. unfold be_difference.
      now rewrite binding_energy_semf_zero.
    + apply (drip_line_first_raises "proton" 0); [lia |].
      rewrite separation_energy_proton. unfold be_difference.
      now rewrite binding_energy_semf_zero.
  - intros HZ.
    destruct (Z.eq_dec (Z mod 2) 0) as [Hev | Hodd].
    + split.
      * apply (drip_line_first_raises "neutron" Z); [lia |].
        rewrite separation_energy_neutron. unfold be_difference.
        now rewrite (binding_energy_semf_neg_even Z Z).
      * apply (drip_line_first_raises "proton" Z); [lia |].
        rewrite separation_energy_proton. unfold be_difference.
        now rewrite (binding_energy_semf_neg_even Z Z).
    + assert (Hodd' : Z mod 2 = 1)
        by (Z.to_euclidean_division_equations; lia).
      assert (Hev' : (Z - 1) mod 2 = 0)
        by (Z.to_euclidean_division_equations; lia).
      destruct (binding_energy_semf_neg_odd Z Z HZ Hodd') as (re & im & Hc).
      split.
      * apply (drip_line_first_raises "neutron" Z); [lia |].
        rewrite separation_energy_neutron. unfold be_difference.
        rewrite Hc. mstep.
        rewrite (binding_energy_semf_neg_even (Z - 1) Z) by (lia || assumption).
        reflexivity.
      * apply (drip_line_first_raises "proton" Z); [lia |].
        rewrite separation_energy_proton. unfold be_difference.
        rewrite Hc. mstep.
        rewrite (binding_energy_semf_neg_even (Z - 1) (Z - 1))
          by (lia || assumption).
        reflexivity.
Qed.

Lemma drip_line_nonpositive_Z_witness :
  (neutron_drip_line 0 = Raise ZeroDivisionError /\
   proton_drip_line 0 = Raise ZeroDivisionError) /\
  (neutron_drip_line (-3) = Raise (ValueError "math domain error") /\
   proton_drip_line (-3) = Raise (ValueError "math domain error")).
Proof.
  split.
  - apply (drip_line_nonpositive_Z 0). reflexivity.
  - apply (drip_line_nonpositive_Z (-3)). lia.
Defined.

(** X26: removing two neutrons costs what removing them one after the other
    costs: for [A >= 3],
    [S_2n(A, Z) = S_n(A, Z) + S_n(A - 1, Z)]. *)
Theorem two_neutron_is_two_single (A Z : int) :
  3 <= A ->
  exists s2 s s' : R,
    two_neutron_separation_energy A Z = Ok (PFloat s2) /\
    separation_energy A Z "neutron" = Ok (PFloat s) /\
    separation_energy (A - 1) Z "neutron" = Ok (PFloat s') /\
    s2 = (s + s')%R.
Proof.
  intros HA. eexists _, _, _.
  split; [change (two_neutron_separation_energy A Z)
            with (be_difference A Z (A - 2) Z);
          apply be_difference_pos; lia |].
  split; [rewrite separation_energy_neutron; apply be_difference_pos; lia |].
  split; [rewrite separation_energy_neutron; apply be_difference_pos; lia |].
  replace (A - 1 - 1) with (A - 2) by lia. ring.
Qed.

Lemma two_neutron_is_two_single_witness :
  exists s2 s s' : R,
    two_neutron_separation_energy 16 8 = Ok (PFloat s2) /\
    separation_energy 16 8 "neutron" = Ok (PFloat s) /\
    separation_energy (16 - 1) 8 "neutron" = Ok (PFloat s') /\
    s2 = (s + s')%R.
Proof.
  apply (two_neutron_is_two_single 16 8). lia.
Defined.

Lemma get_nuclear_data_frame_witness :
  Copy 0 = Copy (length (copies initial_store)) /\
  deref (Copy 0) (snd (get_nuclear_data "He-4" initial_store))
    = dict_get "He-4" (repo initial_store).
Proof.
  apply (get_nuclear_data_frame "He-4" initial_store). reflexivity.
Defined.
